(** * OntoWeaver: the mapping engine, its transformers and its type registry

    A shallow embedding of [ontoweaver/base.py], [ontoweaver/transformer.py]
    and [ontoweaver/tabular.py].

    Python objects that are mutated in place (the row handed to every
    transformer, the adapter's accumulators, the module holding the declared
    types) live in an explicit state that is threaded through a
    state-and-exception monad, which also collects the records sent to
    [logging].  Generators are finite resumption trees, so that the
    consumer's loop body is interleaved with the generator's own effects
    as Python interleaves them. *)

From Stdlib Require Import ZArith String Ascii List Lia.
From stdpp Require Import base option list gmap strings pretty.

Open Scope string_scope.
Open Scope list_scope.

(** ** Python values found in table cells and yielded by transformers *)

Inductive pyval :=
| PStr (s : string)
| PInt (z : Z)
| PNaN                (* float("nan"), the missing-cell marker of Pandas *)
| PNone
| PBool (b : bool).

(** [str(v)] *)
Definition py_str (v : pyval) : string :=
  match v with
  | PStr s => s
  | PInt z => pretty z
  | PNaN => "nan"
  | PNone => "None"
  | PBool true => "True"
  | PBool false => "False"
  end.

(** [bool(v)], the test behind [if v:] *)
Definition truthy (v : pyval) : bool :=
  match v with
  | PStr s => negb (String.eqb s "")
  | PInt z => negb (Z.eqb z 0)
  | PNaN => true
  | PNone => false
  | PBool b => b
  end.

(** [type(v) == str] *)
Definition is_str (v : pyval) : bool :=
  match v with PStr _ => true | _ => false end.

(** [s.replace(a, b)] for one-character [a] and [b]. *)
Fixpoint replace_char (a b : ascii) (s : string) : string :=
  match s with
  | EmptyString => EmptyString
  | String c s' => String (if Ascii.eqb c a then b else c) (replace_char a b s')
  end.

(** The sanitisation of property values: [.replace("'", "`")]. *)
Definition sanitize (s : string) : string := replace_char "'"%char "`"%char s.

(** ** Exceptions and logging *)

(** The exception classes raised or named in the three modules.  The classes
    of [ontoweaver.exceptions] carry no behaviour; only their identity is
    used. *)
Inductive exn :=
| IndexError
| KeyError
| AttributeError
| TypeError
| ValueError
| RegexError
| ConfigError
| DeclarationError
| CardinalityError
| MissingDataError
| MissingFieldError
| DataValidationError
| TransformerInterfaceError
| TransformerConfigError
| TransformerDataError
| TransformerInputError.

Global Instance exn_eq_dec : EqDecision exn.
Proof. solve_decision. Defined.

(** What [logging.warning] is called for. *)
Inductive warning :=
| PropertyNotInFields (p cls : string)
| IdentifierNotString (entry_type : string)
| NothingToTranslate (key : string).

(** A record of the logging output at the levels [error] and [warning].
    [ErrorLog e] is a call of [ErrorManager.error] with the exception class
    [e]; the formatted message text is not modelled. *)
Inductive log_record :=
| ErrorLog (e : exn)
| WarningLog (w : warning)
| RunSummaryLog (nb_errors nb_transformations nb_nodes nb_rows : nat).

(** ** The monad of the embedding

    A computation reads and updates a state, ends with a value or with an
    exception, and emits log records; the records emitted before an
    exception are kept. *)

Inductive outcome (A : Type) :=
| Return (a : A)
| Raise (e : exn).
Arguments Return {A} a.
Arguments Raise {A} e.

Definition M (S A : Type) : Type := S -> outcome A * S * list log_record.

Definition ret {S A} (a : A) : M S A := fun s => (Return a, s, []).

Definition bind {S A B} (m : M S A) (f : A -> M S B) : M S B :=
  fun s => match m s with
           | (Return a, s1, l1) => let '(o, s2, l2) := f a s1 in (o, s2, l1 ++ l2)
           | (Raise e, s1, l1) => (Raise e, s1, l1)
           end.

Definition raise {S A} (e : exn) : M S A := fun s => (Raise e, s, []).
Definition get {S} : M S S := fun s => (Return s, s, []).
Definition modify {S} (f : S -> S) : M S unit := fun s => (Return tt, f s, []).
Definition emit {S} (r : log_record) : M S unit := fun s => (Return tt, s, [r]).

Global Instance M_ret {S} : MRet (M S) := @ret S.
Global Instance M_bind {S} : MBind (M S) := fun A B f m => bind m f.

(** [logging.warning(...)] *)
Definition warn {S} (w : warning) : M S unit := emit (WarningLog w).

(** [for x in xs: b = body(x, b)] *)
Fixpoint for_each {S A B} (xs : list A) (body : A -> B -> M S B) (b : B) : M S B :=
  match xs with
  | [] => ret b
  | x :: xs' => b' ← body x b; for_each xs' body b'
  end.

(** ** base.py: elements *)

(** [Node]: a class created by [Declare.make_node_class] is named by its
    [__name__]; an instance keeps [_id], [_label] and [_properties]. *)
Module Node.
Record t := mk { id : string; label : string; properties : gmap string string }.

Definition Tuple : Type := string * string * gmap string string.

(** [cls(id=id, properties=properties)]: a missing or empty id becomes the
    empty string, a missing label becomes the name of the class. *)
Definition init (cls : string) (id : option string) (properties : gmap string string) : t :=
  {| id := match id with
           | Some s => if String.eqb s "" then "" else s
           | None => ""
           end;
     label := cls;
     properties := properties |}.

Definition as_tuple (self : t) : Tuple := (id self, label self, properties self).
End Node.

(** [str(x)] for an identifier that is a string or [None]. *)
Definition str_of_id (x : option string) : string :=
  match x with Some s => s | None => "None" end.

Module Edge.
Record t := mk { id : string; id_source : string; id_target : string;
                 label : string; properties : gmap string string }.

Definition Tuple : Type := string * string * string * string * gmap string string.

(** [cls(id_source=.., id_target=.., properties=..)]: no [id] is passed,
    and the two ends go through [str]. *)
Definition init (cls : string) (id_source id_target : option string)
           (properties : gmap string string) : t :=
  {| id := "";
     id_source := str_of_id id_source;
     id_target := str_of_id id_target;
     label := cls;
     properties := properties |}.

Definition as_tuple (self : t) : Tuple :=
  (id self, id_source self, id_target self, label self, properties self).
End Edge.

(** ** The mutable state of a run *)

(** The row being processed (a transformer may assign to its cells) and the
    adapter's accumulators [_nodes], [_edges] and [errors]. *)
Record env := Env {
  row : gmap string pyval;
  _nodes : list Node.Tuple;
  _edges : list Edge.Tuple;
  errors : list exn }.

Definition set_row (r : gmap string pyval) (s : env) : env :=
  Env r (_nodes s) (_edges s) (errors s).

(** [row[key]] *)
Definition row_get (key : string) : M env pyval :=
  fun s => match row s !! key with
           | Some v => (Return v, s, [])
           | None => (Raise KeyError, s, [])
           end.

(** [row[key] = v] *)
Definition row_set (key : string) (v : pyval) : M env unit :=
  modify (fun s => set_row (<[key := v]> (row s)) s).

(** [key in row] *)
Definition row_has (key : string) : M env bool :=
  fun s => (Return (bool_decide (is_Some (row s !! key))), s, []).

(** ** base.py: ErrorManager *)

(** [ErrorManager.error]: the message is logged, then the given exception is
    raised when [self.raise_errors] holds and the message is returned
    otherwise.  [raise_errors] is [None] for an object on which the attribute
    was never set, where reading it raises [AttributeError]. *)
Definition error {S} (raise_errors : option bool) (exception : exn) : M S exn :=
  emit (ErrorLog exception);;
  match raise_errors with
  | None => raise AttributeError
  | Some true => raise exception
  | Some false => ret exception
  end.

(** ** Generators *)

(** A generator object: what the body of a generator function does until
    its next [yield].  [GEff m k] runs [m] on the shared state and goes on
    with [k]; an exception raised by [m] ends the generator and reaches the
    consumer. *)
Inductive gen : Type :=
| GDone
| GYield (v : pyval) (k : gen)
| GEff {A : Type} (m : M env A) (k : A -> gen).

Definition GRaise (e : exn) : gen := GEff (raise e) (fun _ : unit => GDone).

(** [for v in g: b = body(v, b)] *)
Fixpoint for_gen {B} (g : gen) (body : pyval -> B -> M env B) (b : B) : M env B :=
  match g with
  | GDone => ret b
  | GYield v k => b' ← body v b; for_gen k body b'
  | GEff m k => x ← m; for_gen (k x) body b
  end.

(** [list(g)] *)
Definition collect (g : gen) : M env (list pyval) :=
  for_gen g (fun v l => ret (l ++ [v])) [].

(** Everything a generator yields when it is run to its end, with the
    exception that ended it, if any, the final state and the log. *)
Fixpoint drain (g : gen) (s : env) : list pyval * option exn * env * list log_record :=
  match g with
  | GDone => ([], None, s, [])
  | GYield v k => let '(vs, e, s1, l1) := drain k s in (v :: vs, e, s1, l1)
  | GEff m k => match m s with
                | (Return x, s1, l1) =>
                    let '(vs, e, s2, l2) := drain (k x) s1 in (vs, e, s2, l1 ++ l2)
                | (Raise e, s1, l1) => ([], Some e, s1, l1)
                end
  end.

(** ** base.py: Transformer *)

(** An output validator is a parameter of the transformers
    ([ontoweaver.validate] is not part of the three modules).  It is given by
    what a call of it does with one value, as [Transformer.create] tells the
    cases apart: it returns a true value, returns a false one, or raises
    [pandera.errors.SchemaErrors]. *)
Inductive verdict := Accept | Reject | SchemaErrors.

(** The keyword parameters a transformer was built with; each becomes an
    attribute of the instance, and a parameter that was not given is an
    attribute that does not exist. *)
Record parameters := Parameters {
  separator : option string;
  format_string : option string;
  value : option pyval;
  translations : option (list (pyval * pyval));
  translate_from : option string;
  translate_to : option string;
  forbidden : option string;
  substitute : option string;
  from_subject : option string;
  raise_errors : option bool }.

Definition no_parameters : parameters :=
  Parameters None None None None None None None None None None.

(** The transformer classes of [ontoweaver.transformer], and a class
    registered by the user, given by its [__call__]. *)
Module kind.
Inductive t :=
| split | cat | cat_format | rowIndex | map | translate | string | replace
| custom (call : pyval -> gen).
End kind.

#[local] Unset Elimination Schemes.
(** A transformer instance.  [target] and [edge] are classes, held by name;
    [properties_of] maps property transformers to property names, in
    insertion order. *)
Inductive Transformer := mkTransformer {
  class : kind.t;
  target : option string;
  properties_of : option (list (Transformer * string));
  edge : option string;
  columns : option (list string);
  output_validator : option (string -> verdict);
  params : parameters }.
#[local] Set Elimination Schemes.

(** [Transformer.create] *)
Definition create (self : Transformer) (item : pyval) : M env pyval :=
  let res := py_str item in
  match output_validator self with
  | None => raise TypeError
  | Some validator =>
      match validator res with
      | Accept => ret (PStr res)
      | Reject => ret PNone
      | SchemaErrors =>
          error (raise_errors (params self)) DataValidationError;;
          ret (PBool false)
      end
  end.

(** [res = self.create(item)], then [yield res] when [res] is true. *)
Definition yield_created (self : Transformer) (item : M env pyval) (k : gen) : gen :=
  GEff (x ← item; create self x)
       (fun res => if truthy res then GYield res k else k).

(** ** Python string methods used by the transformers *)

(** [s.split(sep)] for a non-empty [sep]: [skip] counts the characters of a
    separator still to be passed over, [cur] holds the current piece in
    reverse. *)
Fixpoint split_go (sep s : string) (skip : nat) (cur : list ascii) : list string :=
  match s with
  | EmptyString => [string_of_list_ascii (rev cur)]
  | String c s' =>
      match skip with
      | S n => split_go sep s' n cur
      | O =>
          if String.prefix sep s
          then string_of_list_ascii (rev cur) :: split_go sep s' (String.length sep - 1) []
          else split_go sep s' 0 (c :: cur)
      end
  end.

Definition py_split (s sep : string) : list string := split_go sep s 0 [].

Fixpoint lstrip (chars s : list ascii) : list ascii :=
  match s with
  | [] => []
  | c :: s' => if existsb (Ascii.eqb c) chars then lstrip chars s' else s
  end.

(** [s.strip(chars)] *)
Definition py_strip (s chars : string) : string :=
  let cs := list_ascii_of_string chars in
  string_of_list_ascii (rev (lstrip cs (rev (lstrip cs (list_ascii_of_string s))))).

(** ** transformer.py *)

Definition lift {S A} (o : outcome A) : M S A := fun s => (o, s, []).

(** Reading an attribute that exists only when it was given. *)
Definition attr {S A} (o : option A) : M S A :=
  match o with
  | Some a => ret a
  | None => raise AttributeError
  end.

(** [d.get(key)] on a dictionary kept as an association list. *)
Fixpoint assoc `{EqDecision K} {V} (key : K) (d : list (K * V)) : option V :=
  match d with
  | [] => None
  | (k, v) :: d' => if decide (k = key) then Some v else assoc key d'
  end.

Global Instance pyval_eq_dec : EqDecision pyval.
Proof. solve_decision. Defined.

Section Transformers.
(** Python's [re.sub(pattern, repl, s)] and [template.format_map(row)],
    which may raise. *)
Variable re_sub : string -> string -> string -> outcome string.
Variable format_map : string -> gmap string pyval -> outcome string.

(** [self.error(..., exception = e)] as a statement of a transformer. *)
Definition t_error (self : Transformer) (e : exn) : M env unit :=
  error (raise_errors (params self)) e;; ret tt.

(** [for key in self.columns: ...], the body given with what follows it. *)
Definition for_columns (self : Transformer) (body : string -> gen -> gen) : gen :=
  match columns self with
  | None => GRaise TypeError
  | Some cs => fold_right body GDone cs
  end.

(** [not self.columns] *)
Definition no_columns (self : Transformer) : bool :=
  match columns self with
  | None | Some [] => true
  | Some (_ :: _) => false
  end.

(** [split.__call__] *)
Definition split_call (self : Transformer) : gen :=
  for_columns self (fun key k =>
    GEff (cell ← row_get key;
          sep ← attr (separator (params self));
          if String.eqb sep "" then raise ValueError
          else ret (py_split (py_str cell) sep))
         (fun items =>
            fold_right (fun item k' => yield_created self (ret (PStr item)) k') k items)).

(** [cat.__call__]: the loop over the columns, with [formatted_items]. *)
Fixpoint cat_loop (self : Transformer) (cs : list string) (formatted_items : string) : gen :=
  match cs with
  | [] => GDone
  | key :: cs' =>
      GEff (cell ← row_get key; ret (formatted_items +:+ py_str cell))
           (fun formatted_items =>
              yield_created self (ret (PStr formatted_items))
                            (cat_loop self cs' formatted_items))
  end.

Definition cat_call (self : Transformer) : gen :=
  match columns self with
  | None => GRaise TypeError
  | Some cs => cat_loop self cs ""
  end.

(** [cat_format.__call__] *)
Definition cat_format_call (self : Transformer) : gen :=
  match format_string (params self) with
  | None => GRaise AttributeError
  | Some fs =>
      if String.eqb fs ""
      then GEff (t_error self TransformerConfigError) (fun _ => GDone)
      else yield_created self
             (s ← get; formatted_string ← lift (format_map fs (row s));
              ret (PStr formatted_string))
             GDone
  end.

(** [rowIndex.__call__] *)
Definition rowIndex_call (self : Transformer) (i : pyval) : gen :=
  yield_created self (ret i) GDone.

(** [map.__call__] *)
Definition map_call (self : Transformer) : gen :=
  GEff (if no_columns self then t_error self TransformerInputError else ret tt)
       (fun _ =>
          for_columns self (fun key k =>
            yield_created self
              (present ← row_has key;
               (if present : bool then ret tt else t_error self TransformerDataError);;
               row_get key)
              k)).

(** The [map] instance a [translate] instance builds for itself: the same
    positional arguments and no keyword parameter. *)
Definition inner_map (self : Transformer) : Transformer :=
  mkTransformer kind.map (target self) (properties_of self) (edge self)
                (columns self) (output_validator self) no_parameters.

(** [translate.__call__]: the cells are rewritten in the row itself, then
    the instance's own [map] is run on that row. *)
Definition translate_call (self : Transformer) : gen :=
  GEff (if no_columns self then t_error self TransformerDataError else ret tt)
       (fun _ =>
          match columns self with
          | None => GRaise TypeError
          | Some cs =>
              GEff (for_each cs (fun key _ =>
                      present ← row_has key;
                      (if present : bool then ret tt else t_error self TransformerDataError);;
                      cell ← row_get key;
                      table ← attr (translations (params self));
                      match assoc cell table with
                      | Some v => row_set key v
                      | None =>
                          attr (translate_from (params self));;
                          attr (translate_to (params self));;
                          warn (NothingToTranslate key)
                      end) tt)
                   (fun _ => map_call (inner_map self))
          end).

(** [string.__call__]; [self.value] is [kwargs.get("value", None)]. *)
Definition string_call (self : Transformer) : gen :=
  let v := default PNone (value (params self)) in
  GEff (if truthy v then ret tt else t_error self TransformerInterfaceError)
       (fun _ => yield_created self (ret v) GDone).

(** [replace.__call__], with the defaults of its constructor. *)
Definition replace_call (self : Transformer) : gen :=
  let forbidden := default "[^a-zA-Z0-9_`.()]" (forbidden (params self)) in
  let substitute := default "" (substitute (params self)) in
  for_columns self (fun key k =>
    yield_created self
      (cell ← row_get key;
       match cell with
       | PStr s =>
           formatted ← lift (re_sub forbidden substitute s);
           ret (PStr (py_strip formatted substitute))
       | _ => raise TypeError
       end)
      k).

(** [transformer(row, i)]; the row is the one of the state. *)
Definition call (self : Transformer) (i : pyval) : gen :=
  match class self with
  | kind.split => split_call self
  | kind.cat => cat_call self
  | kind.cat_format => cat_format_call self
  | kind.rowIndex => rowIndex_call self i
  | kind.map => map_call self
  | kind.translate => translate_call self
  | kind.string => string_call self
  | kind.replace => replace_call self
  | kind.custom f => f i
  end.
End Transformers.

(** ** tabular.py: the declared types *)

(** What a name of the module of declared types is bound to: a class made by
    [make_node_class] (its [fields()] lists the values of [properties]), a
    class made by [make_edge_class] (its [fields()] is [properties] itself),
    or something that is not a declared type. *)
Inductive class_desc :=
| NodeClass (properties : list (Transformer * string))
| EdgeClass (properties : list (Transformer * string))
            (source_type : string) (target_type : list string)
| NotAType.

(** ** tabular.py: PandasAdapter *)

Inductive TypeAffixes := suffix | prefix | none.

Module PandasAdapter.
(** The attributes set by [__init__] and left alone by [run].  [types] is
    the module of declared types, through which the classes that the
    transformers hold are reached. *)
Record t := mk {
  df : list (pyval * gmap string pyval);
  subject_transformer : Transformer;
  transformers : list Transformer;
  metadata : option (gmap string (gmap string string));
  type_affix : TypeAffixes;
  type_affix_sep : string;
  raise_errors : bool;
  types : gmap string class_desc }.
End PandasAdapter.

(** The local variables of [process_row].  An entry of [local_errors] is
    the message returned by [self.error], kept as the exception class it was
    made for. *)
Record locals := Locals {
  local_nodes : list Node.t;
  local_edges : list Edge.t;
  local_errors : list exn;
  local_rows : nat;
  local_transformations : nat;
  local_nb_nodes : nat }.

Definition add_node (n : Node.t) (l : locals) : locals :=
  Locals (local_nodes l ++ [n]) (local_edges l) (local_errors l)
         (local_rows l) (local_transformations l) (local_nb_nodes l).
Definition add_edge (e : Edge.t) (l : locals) : locals :=
  Locals (local_nodes l) (local_edges l ++ [e]) (local_errors l)
         (local_rows l) (local_transformations l) (local_nb_nodes l).
Definition add_error (e : exn) (l : locals) : locals :=
  Locals (local_nodes l) (local_edges l) (local_errors l ++ [e])
         (local_rows l) (local_transformations l) (local_nb_nodes l).
Definition count_transformation (l : locals) : locals :=
  Locals (local_nodes l) (local_edges l) (local_errors l)
         (local_rows l) (S (local_transformations l)) (local_nb_nodes l).
Definition count_node (l : locals) : locals :=
  Locals (local_nodes l) (local_edges l) (local_errors l)
         (local_rows l) (local_transformations l) (S (local_nb_nodes l)).

(** [if id:] for an identifier that is a string or [None]. *)
Definition id_truthy (id : option string) : bool :=
  match id with
  | Some s => negb (String.eqb s "")
  | None => false
  end.

Section Engine.
Variable re_sub : string -> string -> string -> outcome string.
Variable format_map : string -> gmap string pyval -> outcome string.
Variable self : PandasAdapter.t.

#[local] Abbreviation call := (call re_sub format_map).

(** [self.error(..., exception = e)] on the adapter. *)
Definition a_error (e : exn) : M env exn :=
  error (Some (PandasAdapter.raise_errors self)) e.

(** [PandasAdapter.make_id] *)
Definition make_id (entry_type : string) (entry_name : pyval) : M env (option string) :=
  (if is_str entry_name then ret tt else warn (IdentifierNotString entry_type));;
  let entry_name := py_str entry_name in
  let sep := PandasAdapter.type_affix_sep self in
  let id := match PandasAdapter.type_affix self with
            | prefix => entry_type +:+ sep +:+ entry_name
            | suffix => entry_name +:+ sep +:+ entry_type
            | none => entry_name
            end in
  if negb (String.eqb id "") then ret (Some id)
  else a_error DeclarationError;; ret None.

(** [PandasAdapter.properties] *)
Definition properties (properity_dict : option (list (Transformer * string)))
           (i : pyval) (transformer : Transformer) (node : bool)
  : M env (gmap string string) :=
  d ← attr properity_dict;
  properties ← for_each d (fun '(prop_transformer, property_name) properties =>
      for_gen (call prop_transformer i)
              (fun property properties =>
                 ret (<[property_name := sanitize (py_str property)]> properties))
              properties) ∅;
  match PandasAdapter.metadata self with
  | None => ret properties
  | Some md =>
      if decide (md = ∅) then ret properties
      else
        elem ← attr (if node then target transformer else edge transformer);
        match md !! elem with
        | Some kv => ret (kv ∪ properties)
        | None => ret properties
        end
  end.

(** [PandasAdapter.make_node]: [node_t(id=id, properties=properties)] *)
Definition make_node (node_t : option string) (id : option string)
           (properties : gmap string string) : M env Node.t :=
  match node_t with
  | Some cls => ret (Node.init cls id properties)
  | None => raise TypeError
  end.

(** [PandasAdapter.make_edge] *)
Definition make_edge (edge_t : option string) (id_target id_source : option string)
           (properties : gmap string string) : M env Edge.t :=
  match edge_t with
  | Some cls => ret (Edge.init cls id_source id_target properties)
  | None => raise TypeError
  end.

(** [transformer.edge.fields()], as the argument of [properties]. *)
Definition edge_fields (transformer : Transformer) : M env (list (Transformer * string)) :=
  e ← attr (edge transformer);
  match PandasAdapter.types self !! e with
  | Some (EdgeClass properties _ _) => ret properties
  | _ => raise AttributeError
  end.

(** The body of [for s_id in t(row, i):]. *)
Definition redirected_edge (i : pyval) (transformer t : Transformer)
           (target_node_id : option string) (s_id : pyval) (l : locals) : M env locals :=
  t_name ← attr (target t);
  subject_node_id ← make_id t_name s_id;
  p ← properties (properties_of transformer) i t false;
  e ← make_edge (edge transformer) target_node_id subject_node_id p;
  ret (add_edge e l).

(** The body of [for t in self.transformers:], with [found_valid_subject]. *)
Definition find_subject (i : pyval) (transformer : Transformer) (from_subject : string)
           (target_node_id : option string) (t : Transformer) (st : bool * locals)
  : M env (bool * locals) :=
  t_name ← attr (target t);
  if String.eqb from_subject t_name then
    l ← for_gen (call t i) (redirected_edge i transformer t target_node_id) (snd st);
    ret (true, l)
  else ret st.

(** The edges of one target node: the branch on [hasattr(transformer,
    "from_subject")]. *)
Definition make_edges (i : pyval) (transformer : Transformer)
           (source_node_id target_node_id : option string) (l : locals) : M env locals :=
  match from_subject (params transformer) with
  | Some from_subject =>
      st ← for_each (PandasAdapter.transformers self)
                    (find_subject i transformer from_subject target_node_id) (false, l);
      if fst (st : bool * locals) then ret (snd st)
      else e ← a_error ConfigError; ret (add_error e (snd st))
  | None =>
      fields ← edge_fields transformer;
      p ← properties (Some fields) i transformer false;
      e ← make_edge (edge transformer) target_node_id source_node_id p;
      ret (add_edge e l)
  end.

(** The body of [for target_id in transformer(row, i):]. *)
Definition process_target (i : pyval) (transformer : Transformer)
           (source_node_id : option string) (target_id : pyval) (l : locals) : M env locals :=
  let l := count_node l in
  if truthy target_id then
    t_name ← attr (target transformer);
    target_node_id ← make_id t_name target_id;
    p ← properties (properties_of transformer) i transformer true;
    n ← make_node (target transformer) target_node_id p;
    make_edges i transformer source_node_id target_node_id (add_node n l)
  else
    e ← a_error TransformerDataError; ret (add_error e l).

(** The body of [for j,transformer in enumerate(self.transformers):]; [j]
    only appears in a message. *)
Definition process_transformer (i : pyval) (source_node_id : option string)
           (transformer : Transformer) (l : locals) : M env locals :=
  for_gen (call transformer i) (process_target i transformer source_node_id)
          (count_transformation l).

(** [process_row], the local function of [run]. *)
Definition process_row (row_data : pyval * gmap string pyval) : M env locals :=
  let '(i, r) := row_data in
  modify (set_row r);;
  let subject := PandasAdapter.subject_transformer self in
  let l := Locals [] [] [] 1 0 0 in
  ids ← collect (call subject i);
  l ← (if (1 <? length ids)%nat
       then e ← a_error TransformerInterfaceError; ret (add_error e l)
       else ret l);
  source_id ← match ids with
              | [] => raise IndexError
              | id0 :: _ => ret id0
              end;
  s_name ← attr (target subject);
  source_node_id ← make_id s_name source_id;
  l ← (if id_truthy source_node_id then
         p ← properties (properties_of subject) i subject true;
         n ← make_node (target subject) source_node_id p;
         ret (add_node n l)
       else
         e ← a_error DeclarationError; ret (add_error e l));
  for_each (PandasAdapter.transformers self) (process_transformer i source_node_id) l.

(** [Adapter.nodes_append] and [Adapter.edges_append] on a list. *)
Definition nodes_append (nodes : list Node.t) : M env unit :=
  modify (fun s => Env (row s) (_nodes s ++ List.map Node.as_tuple nodes)
                       (_edges s) (errors s)).
Definition edges_append (edges : list Edge.t) : M env unit :=
  modify (fun s => Env (row s) (_nodes s)
                       (_edges s ++ List.map Edge.as_tuple edges) (errors s)).

(** [PandasAdapter.run] for [parallel_mapping == 0]: the rows are processed
    in the order of the table; an exception leaves what the rows before it
    have appended.  The result is [(nb_transformations, nb_nodes, nb_rows)]. *)
Definition run : M env (nat * nat * nat) :=
  modify (fun s => Env (row s) [] [] (errors s));;
  counts ← for_each (PandasAdapter.df self) (fun row_data '(nb_t, nb_n, nb_r) =>
      l ← process_row row_data;
      nodes_append (local_nodes l);;
      edges_append (local_edges l);;
      modify (fun s => Env (row s) (_nodes s) (_edges s)
                           (errors s ++ local_errors l));;
      ret (nb_t + local_transformations l, nb_n + local_nb_nodes l,
           nb_r + local_rows l)%nat) (0, 0, 0)%nat;
  s ← get;
  let '(nb_t, nb_n, nb_r) := counts in
  (if bool_decide (errors s = [])
   then ret tt
   else emit (RunSummaryLog (length (errors s)) nb_t nb_n nb_r));;
  ret counts.
End Engine.

(** ** tabular.py: Declare *)

(** The state of a declaration is the module in which the types are
    declared: what each of its names is bound to. *)

(** [setattr(self.module, name, cls)] *)
Definition module_set (name : string) (cls : class_desc) : M (gmap string class_desc) unit :=
  modify (fun module => <[name := cls]> module).

(** [cls.fields()] when [cls] is a class made by [make_node_class]. *)
Definition fields (cls : class_desc) : list string :=
  match cls with
  | NodeClass properties => List.map snd properties
  | _ => []
  end.

(** [cls.target_type()] and [cls.source_type()] for a class made by
    [make_edge_class]. *)
Definition target_type (cls : class_desc) : option (list string) :=
  match cls with
  | EdgeClass _ _ tt_list => Some tt_list
  | _ => None
  end.
Definition source_type (cls : class_desc) : option string :=
  match cls with
  | EdgeClass _ st _ => Some st
  | _ => None
  end.

(** The property names [p] for which [p in cls.fields()] holds.  The
    [fields()] of an edge class is a dictionary keyed by transformers, which
    no property name is a key of; what is not a class has no [fields]. *)
Definition names_in_fields (cls : class_desc) : M (gmap string class_desc) (list string) :=
  match cls with
  | NodeClass _ => ret (fields cls)
  | EdgeClass _ _ _ => ret []
  | NotAType => raise AttributeError
  end.

(** The loop that warns about each requested property that is not found. *)
Definition check_properties (name : string) (cls : class_desc)
           (properties : list (Transformer * string)) : M (gmap string class_desc) unit :=
  known ← names_in_fields cls;
  for_each (List.map snd properties) (fun p _ =>
    if bool_decide (p ∈ (known : list string)) then ret tt
    else warn (PropertyNotInFields p name)) tt.

(** [Declare.make_node_class]; the class is returned by name. *)
Definition make_node_class (name : string) (properties : list (Transformer * string))
  : M (gmap string class_desc) string :=
  module ← get;
  match (module : gmap string class_desc) !! name with
  | Some cls =>
      check_properties name cls properties;;
      ret name
  | None =>
      module_set name (NodeClass properties);;
      ret name
  end.

(** [Declare.make_edge_class] *)
Definition make_edge_class (name source_t target_t : string)
           (properties : list (Transformer * string)) : M (gmap string class_desc) string :=
  module ← get;
  match (module : gmap string class_desc) !! name with
  | Some cls =>
      check_properties name cls properties;;
      match cls with
      | EdgeClass fields st tt_list =>
          module_set name (EdgeClass fields st (tt_list ++ [target_t]));;
          ret name
      | _ => raise AttributeError
      end
  | None =>
      module_set name (EdgeClass properties source_t [target_t]);;
      ret name
  end.


(** ** base.py: Element.__init__ and from_tuple *)

Module Element.
(** [Element.__init__] in a class named [cls]: what [_id] and [_label]
    become. *)
Definition init_id (id : option string) : string :=
  match id with
  | Some s => if String.eqb s "" then "" else s
  | None => ""
  end.
Definition init_label (cls : string) (label : option string) : string :=
  match label with
  | Some l => if String.eqb l "" then cls else l
  | None => cls
  end.
End Element.

(** [Node.from_tuple], called on the class named [cls]. *)
Definition Node_from_tuple (cls : string) (biocypher_tuple : Node.Tuple) : Node.t :=
  Node.mk (Element.init_id (Some (fst (fst biocypher_tuple))))
          (Element.init_label cls (Some (snd (fst biocypher_tuple))))
          (snd biocypher_tuple).

(** [Edge.from_tuple], called on the class named [cls]. *)
Definition Edge_from_tuple (cls : string) (biocypher_tuple : Edge.Tuple) : Edge.t :=
  Edge.mk (Element.init_id (Some (fst (fst (fst (fst biocypher_tuple))))))
          (str_of_id (Some (snd (fst (fst (fst biocypher_tuple))))))
          (str_of_id (Some (snd (fst (fst biocypher_tuple)))))
          (Element.init_label cls (Some (snd (fst biocypher_tuple))))
          (snd biocypher_tuple).

(** ** base.py: All *)

(** [All(module)] over the module of declared types.  The lists follow the
    order of the module's dictionary, which the map does not keep: the
    statements about them are about membership. *)
Module All.
Definition is_node (cls : class_desc) : bool :=
  match cls with NodeClass _ => true | _ => false end.
Definition is_edge (cls : class_desc) : bool :=
  match cls with EdgeClass _ _ _ => true | _ => false end.

(** [elements(asked)], by the names of the classes. *)
Definition elements (asked : class_desc -> bool) (module : gmap string class_desc)
  : list (string * class_desc) :=
  List.filter (fun c => asked (snd c)) (map_to_list module).

Definition nodes (module : gmap string class_desc) : list string :=
  fst <$> elements is_node module.
Definition edges (module : gmap string class_desc) : list string :=
  fst <$> elements is_edge module.

(** [node_fields()]: the [fields()] of every node class, one after the
    other. *)
Definition node_fields (module : gmap string class_desc) : list string :=
  concat ((fun c => fields (snd c)) <$> elements is_node module).
End All.

(** ** tabular.py: YamlParser, the helpers of the parser *)

Module YamlParser.
(** [_extract_metadata] and the body of its last loop come first: they read
    the state with the [get] of the monad, a name that the method
    [YamlParser.get] takes over below. *)

(** [", ".join(columns)] *)
Definition join_columns (columns : list string) : string := String.concat ", " columns.

(** The body of [for key in k_metadata_column:] for the type [t]. *)
Definition rename_column_key (t : string) (columns : option (list string)) (key : string)
           (_ : unit) : M (gmap string (gmap string string)) unit :=
  metadata ← get;
  let of_type := default ∅ ((metadata : gmap string (gmap string string)) !! t) in
  match of_type !! key with
  | None => ret tt
  | Some key_name =>
      match of_type !! key_name with
      | Some _ =>
          (* [logging.error(msg)], then [raise KeyError(msg)] *)
          emit (ErrorLog KeyError);; raise KeyError
      | None =>
          let of_type := delete key of_type in
          match columns with
          | Some ((_ :: _) as columns) =>
              modify (fun metadata =>
                        <[t := <[key_name := join_columns columns]> of_type]> metadata)
          | _ => modify (fun metadata => <[t := of_type]> metadata)
          end
      end
  end.

(** [YamlParser._extract_metadata]; the dictionary [metadata] is the state,
    and is what is returned when something is. *)
Definition _extract_metadata (k_metadata_column : list string)
           (metadata_list : option (list (gmap string string)))
           (type : option string) (columns : option (list string))
  : M (gmap string (gmap string string)) (option (gmap string (gmap string string))) :=
  match metadata_list, type with
  | Some ((_ :: _) as metadata_list), Some t =>
      if String.eqb t "" then ret None
      else
        (* [metadata.setdefault(type, {})] *)
        modify (fun metadata => match metadata !! t with
                                | Some _ => metadata
                                | None => <[t := ∅]> metadata
                                end);;
        for_each metadata_list (fun item _ =>
          modify (fun metadata => <[t := item ∪ default ∅ (metadata !! t)]> metadata)) tt;;
        for_each k_metadata_column (rename_column_key t columns) tt;;
        metadata ← get;
        ret (Some metadata)
  | _, _ => ret None
  end.

Section Config.
(** The values of a configuration are not looked into by the helpers. *)
Context {V : Type}.
(** [self.config] *)
Variable config : gmap string V.

(** [if not pconfig: pconfig = self.config] *)
Definition or_config (pconfig : option (gmap string V)) : gmap string V :=
  match pconfig with
  | Some d => if decide (size d = 0) then config else d
  | None => config
  end.

(** [for k in keys: if k in pconfig: return pconfig[k]], then [return None]. *)
Fixpoint first_of (keys : list string) (pconfig : gmap string V) : option V :=
  match keys with
  | [] => None
  | k :: keys' =>
      match pconfig !! k with
      | Some v => Some v
      | None => first_of keys' pconfig
      end
  end.

(** [YamlParser.get] *)
Definition get (keys : list string) (pconfig : option (gmap string V)) : option V :=
  first_of keys (or_config pconfig).

(** [YamlParser.get_not] *)
Definition get_not (keys : list string) (pconfig : option (gmap string V)) : gmap string V :=
  filter (fun kv => fst kv ∉ keys) (or_config pconfig).
End Config.
End YamlParser.

(** ** Vocabulary of the statements *)

(** The result of a computation that ran after [l1] was logged. *)
Definition after {S A} (l1 : list log_record) (r : outcome A * S * list log_record)
  : outcome A * S * list log_record :=
  (fst (fst r), snd (fst r), l1 ++ snd r).

(** Every value that a generator may yield satisfies [P], whatever the state
    its effects run in. *)
Fixpoint yields_all (P : pyval -> Prop) (g : gen) : Prop :=
  match g with
  | GDone => True
  | GYield v k => P v /\ yields_all P k
  | GEff m k => forall s x s' lg, m s = (Return x, s', lg) -> yields_all P (k x)
  end.

(** [v] is what [self.create(item)] returns for an item whose string the
    output validator accepts, and it is not empty. *)
Definition passed_create (self : Transformer) (v : pyval) : Prop :=
  exists item validator,
    output_validator self = Some validator
    /\ validator (py_str item) = Accept
    /\ py_str item <> ""
    /\ v = PStr (py_str item).

(** The transformer is an instance of a class of [ontoweaver.transformer]. *)
Definition builtin (self : Transformer) : Prop :=
  match class self with
  | kind.custom _ => False
  | _ => True
  end.

(** The values [formatted_items] takes in [cat.__call__], one for each cell. *)
Fixpoint running (formatted_items : string) (cells : list pyval) : list string :=
  match cells with
  | [] => []
  | cell :: cells' =>
      let formatted_items := formatted_items +:+ py_str cell in
      formatted_items :: running formatted_items cells'
  end.

(** [local_errors] is only appended to. *)
Definition grows (l l' : locals) : Prop :=
  exists es, local_errors l' = local_errors l ++ es.

(** A relation on the locals, carried by the pair [(found_valid_subject,
    locals)] of the search for a subject. *)
Definition on_snd {A B} (R : B -> B -> Prop) (x y : A * B) : Prop := R (snd x) (snd y).

(** From [l] to [l']: no edge was added, and as many [ConfigError] were
    recorded as nodes were added; nothing was added under the raising
    policy. *)
Definition unmatched_step (raising : bool) (l l' : locals) : Prop :=
  local_edges l' = local_edges l
  /\ exists nodes errs,
      local_nodes l' = local_nodes l ++ nodes
      /\ local_errors l' = local_errors l ++ errs
      /\ length (filter (fun e => e = ConfigError) errs) = length nodes
      /\ (raising = true -> nodes = [] /\ errs = []).

(** The arguments of one more declaration of an edge type: [(source_t,
    target_t, properties)]. *)
Definition edge_declaration : Type := string * string * list (Transformer * string).

(** A client that calls [make_edge_class(name, ...)] once for each
    declaration of a list, in order, as the parser does for the
    transformers that share an edge type. *)
Definition declare_edges (name : string) (decls : list edge_declaration)
  : M (gmap string class_desc) string :=
  for_each decls (fun '(source_t, target_t, properties) _ =>
                    make_edge_class name source_t target_t properties) name.

(** The metadata of a type once every item of the list was merged into it. *)
Definition merged (items : list (gmap string string)) (of_type : gmap string string)
  : gmap string string :=
  fold_left (fun m item => item ∪ m) items of_type.

(** The value the items give to a key: the one of the last item that has
    it. *)
Definition item_value (items : list (gmap string string)) (k : string) : option string :=
  fold_left (fun acc item => match item !! k with Some v => Some v | None => acc end)
            items None.

(** Every effect of a generator is in the class [Q] of computations. *)
Fixpoint effects_all (Q : forall A, M env A -> Prop) (g : gen) : Prop :=
  match g with
  | GDone => True
  | GYield _ k => effects_all Q k
  | GEff m k => Q _ m /\ forall s x s' lg, m s = (Return x, s', lg) -> effects_all Q (k x)
  end.

(** From [s] to [s'] the adapter's accumulators are kept, and so is every
    cell of the row but those of the columns [keys]. *)
Definition confined (keys : list string) (s s' : env) : Prop :=
  _nodes s' = _nodes s /\ _edges s' = _edges s /\ errors s' = errors s
  /\ forall k, k ∉ keys -> row s' !! k = row s !! k.

(** The computations that are confined to the columns [keys]. *)
Definition confines (keys : list string) (A : Type) (m : M env A) : Prop :=
  forall s o s' lg, m s = (o, s', lg) -> confined keys s s'.

(** The computations that end with [AttributeError] whenever they log an
    error. *)
Definition error_is_fatal (A : Type) (m : M env A) : Prop :=
  forall s o s' lg x, m s = (o, s', lg) -> ErrorLog x ∈ lg -> o = Raise AttributeError.

(** The columns a transformer assigns to. *)
Definition written_columns (self : Transformer) : list string :=
  match class self with
  | kind.translate => default [] (columns self)
  | _ => []
  end.

(** The strings that [create] returns under [validator] and that a
    transformer then yields: accepted, and not empty. *)
Definition kept (validator : string -> verdict) (x : string) : bool :=
  match validator x with
  | Accept => negb (String.eqb x "")
  | _ => false
  end.

(** What a transformer yields for the items it extracted, in order. *)
Definition yielded (validator : string -> verdict) (items : list pyval) : list pyval :=
  PStr <$> List.filter (kept validator) (py_str <$> items).

(** The exception a transformer ends with after logging a missing column. *)
Definition missing_column_exn (raise_errors : option bool) : exn :=
  match raise_errors with
  | Some true => TransformerDataError
  | Some false => KeyError
  | None => AttributeError
  end.


(** The edge [e] made for the node [n] of a transformer without
    [from_subject]: it goes from the subject of the row to the node, and both
    carry the types of the transformer. *)
Definition joins (source_node_id : option string) (transformer : Transformer)
           (n : Node.t) (e : Edge.t) : Prop :=
  Node.id n <> "" /\ Edge.id_target e = Node.id n
  /\ Edge.id_source e = str_of_id source_node_id
  /\ target transformer = Some (Node.label n)
  /\ edge transformer = Some (Edge.label e).

(** From [l] to [l']: each node was added with its edge, each value counted
    gave a node or a [TransformerDataError]. *)
Definition direct_step (source_node_id : option string) (transformer : Transformer)
           (l l' : locals) : Prop :=
  exists nodes edges errs,
    local_nodes l' = local_nodes l ++ nodes
    /\ local_edges l' = local_edges l ++ edges
    /\ local_errors l' = local_errors l ++ errs
    /\ Forall2 (joins source_node_id transformer) nodes edges
    /\ Forall (fun e => e = TransformerDataError) errs
    /\ local_nb_nodes l' = (local_nb_nodes l + length nodes + length errs)%nat.

(** [local_errors] is kept. *)
Definition same_errors (l l' : locals) : Prop := local_errors l' = local_errors l.

(** The counters of the rows and of the transformations are kept, and no
    more nodes are added than are counted. *)
Definition counted (l l' : locals) : Prop :=
  local_rows l' = local_rows l
  /\ local_transformations l' = local_transformations l
  /\ (length (local_nodes l') + local_nb_nodes l <= length (local_nodes l) + local_nb_nodes l')%nat.

(** The computations that leave the adapter's accumulators as they are. *)
Definition keeps (A : Type) (m : M env A) : Prop :=
  forall s o s' lg, m s = (o, s', lg) ->
    _nodes s' = _nodes s /\ _edges s' = _edges s /\ errors s' = errors s.

(** The transformers of a dictionary of properties are instances of the
    classes of [ontoweaver.transformer]. *)
Definition builtin_properties (ps : list (Transformer * string)) : Prop :=
  Forall (fun p => builtin (fst p)) ps.

(** Every transformer that a run of the adapter calls is an instance of a
    class of [ontoweaver.transformer]: the subject transformer, the
    transformers of the list, those of their properties and those of the
    fields of the declared edge classes. *)
Definition all_builtin (self : PandasAdapter.t) : Prop :=
  Forall (fun t => builtin t /\ match properties_of t with
                                | Some ps => builtin_properties ps
                                | None => True
                                end)
         (PandasAdapter.subject_transformer self :: PandasAdapter.transformers self)
  /\ map_Forall (fun _ c => match c with
                            | EdgeClass ps _ _ => builtin_properties ps
                            | _ => True
                            end) (PandasAdapter.types self).

(** The string holds no single quote. *)
Definition no_quote (v : string) : Prop := "'"%char ∉ list_ascii_of_string v.

(** From [p] to [p']: an entry of [p'] is an entry of [p], or it was stored
    under one of [names] after the sanitisation. *)
Definition stores (names : list string) (p p' : gmap string string) : Prop :=
  forall k v, p' !! k = Some v -> p !! k = Some v \/ (k ∈ names /\ no_quote v).

(** The metadata that the adapter holds for the type of the node, or of the
    edge, that a transformer makes. *)
Definition metadata_for (self : PandasAdapter.t) (t : Transformer) (node : bool)
  : gmap string string :=
  default ∅ (md ← PandasAdapter.metadata self;
             elem ← (if node then target t else edge t);
             md !! elem).

(** From [l] to [l']: only edges were added, and each of them satisfies
    [P]. *)
Definition redirected_step (P : Edge.t -> Prop) (l l' : locals) : Prop :=
  local_nodes l' = local_nodes l
  /\ local_errors l' = local_errors l
  /\ exists edges, local_edges l' = local_edges l ++ edges /\ Forall P edges.

(** ** Concrete inputs *)

(** The adapter's accumulators after [__init__], with no row yet. *)
Definition initial : env := Env ∅ [] [] [].

(** An output validator with no rule. *)
Definition accept_all : string -> verdict := fun _ => Accept.

(** No transformer of the inputs below is a [replace] or a [cat_format];
    [re.sub] and [format_map] are fixed to functions that raise. *)
Definition no_re_sub (pattern repl s : string) : outcome string := Raise RegexError.
Definition no_format_map (template : string) (r : gmap string pyval) : outcome string :=
  Raise ValueError.

(** The module left by a sequence of declarations made in an empty one. *)
Definition declared_by {A} (m : M (gmap string class_desc) A) : gmap string class_desc :=
  snd (fst (m ∅)).

(** Subject [Gene] from [gene_id]; [map] on [disease_id] to [Disease] via
    [ASSOCIATED_WITH]; affix [suffix], separator [":"].  The types are
    declared in the order in which the parser declares them. *)
Definition gene_disease_types : gmap string class_desc :=
  declared_by (make_node_class "Gene" [];;
               make_node_class "Disease" [];;
               make_edge_class "ASSOCIATED_WITH" "Gene" "Disease" []).

Definition gene_disease_row : gmap string pyval :=
  <["gene_id" := PStr "BRCA1"]> (<["disease_id" := PStr "D001"]> ∅).

Definition gene_disease_mapping (subject_validator target_validator : string -> verdict)
           (raise_errors : bool) (df : list (pyval * gmap string pyval)) : PandasAdapter.t :=
  PandasAdapter.mk df
    (mkTransformer kind.map (Some "Gene") (Some []) None (Some ["gene_id"])
                   (Some subject_validator) no_parameters)
    [mkTransformer kind.map (Some "Disease") (Some []) (Some "ASSOCIATED_WITH")
                   (Some ["disease_id"]) (Some target_validator) no_parameters]
    (Some ∅) suffix ":" raise_errors gene_disease_types.






(** A [map] on a cell that holds a single quote. *)
Definition quoted_row : gmap string pyval := <["name" := PStr "it's"]> ∅.
Definition quoted_map : Transformer :=
  mkTransformer kind.map (Some "Person") (Some []) None (Some ["name"])
                (Some accept_all) no_parameters.

(** A [cat] on two columns. *)
Definition cat_row : gmap string pyval := <["a" := PStr "x"]> (<["b" := PStr "y"]> ∅).
Definition cat_ab : Transformer :=
  mkTransformer kind.cat (Some "Person") (Some []) None (Some ["a"; "b"])
                (Some accept_all) no_parameters.

(** A subject read by [map] from an empty cell, and one read from two
    columns; errors are collected. *)
Definition empty_subject_row : gmap string pyval := <["gene_id" := PStr ""]> ∅.
Definition two_subjects_row : gmap string pyval :=
  <["gene_id" := PStr "BRCA1"]> (<["alias" := PStr "BRCC1"]> ∅).
Definition two_subjects_mapping : PandasAdapter.t :=
  PandasAdapter.mk [(PInt 0, two_subjects_row)]
    (mkTransformer kind.map (Some "Gene") (Some []) None (Some ["gene_id"; "alias"])
                   (Some accept_all) no_parameters)
    [] (Some ∅) suffix ":" false (declared_by (make_node_class "Gene" [])).

(** An adapter with the affix policy [none]. *)
Definition bare_ids : PandasAdapter.t :=
  PandasAdapter.mk []
    (mkTransformer kind.map (Some "Gene") (Some []) None (Some ["gene_id"])
                   (Some accept_all) no_parameters)
    [] None none ":" false ∅.
Definition prefixed_ids : PandasAdapter.t :=
  PandasAdapter.mk []
    (mkTransformer kind.map (Some "Gene") (Some []) None (Some ["gene_id"])
                   (Some accept_all) no_parameters)
    [] None prefix ":" true ∅.

(** A module where [Gene] is a node class. *)
Definition gene_only : gmap string class_desc := declared_by (make_node_class "Gene" []).

(** The items of a [metadata] section, with the directive that names the
    key under which the column names are added, and items whose directive
    names a key that the items hold themselves. *)
Definition source_directive : string := "add_source_column_names_as".
Definition source_items : list (gmap string string) :=
  [<["source" := "OncoKB"]> ∅; <[source_directive := "columns_of_origin"]> ∅].
Definition colliding_items : list (gmap string string) :=
  [<["source" := "OncoKB"]> ∅; <[source_directive := "source"]> ∅].

(** The section of a transformer in a mapping, with strings for values. *)
Definition map_section : gmap string string :=
  <["columns" := "disease_id"]> (<["to_object" := "Disease"]> (<["via_relation" := "ASSOCIATED_WITH"]> ∅)).

(** A [translate] with one translation, a [split] on [;] and a [string]
    without value under the collecting policy. *)
Definition translate_gene : Transformer :=
  mkTransformer kind.translate (Some "Gene") (Some []) None (Some ["gene_id"])
                (Some accept_all)
                (Parameters None None None (Some [(PStr "BRCA1", PStr "ENSG00000012048")])
                            None None None None None None).
Definition split_ids : Transformer :=
  mkTransformer kind.split (Some "Disease") (Some []) None (Some ["ids"])
                (Some accept_all)
                (Parameters (Some ";") None None None None None None None None None).
Definition ids_row : gmap string pyval := <["ids" := PStr "D001;;D002"]> ∅.
Definition string_no_value : Transformer :=
  mkTransformer kind.string (Some "Source") (Some []) None None (Some accept_all)
                (Parameters None None None None None None None None None (Some false)).

(** A [map] on a column that [gene_disease_row] has and on one that it does
    not have. *)
Definition map_gene_alias : Transformer :=
  mkTransformer kind.map (Some "Gene") (Some []) None (Some ["gene_id"; "alias"])
                (Some accept_all) no_parameters.

(** The mapping of genes and diseases on its one row, errors collected. *)
Definition gene_disease_run : PandasAdapter.t :=
  gene_disease_mapping accept_all accept_all false [(PInt 0, gene_disease_row)].


(** * Properties *)

(** ** The monad and the loops *)

Section Monad_facts.
Context {S : Type}.

Lemma bind_Return {A B} (m : M S A) (f : A -> M S B) s a s1 l1 :
  m s = (Return a, s1, l1) -> bind m f s = after l1 (f a s1).
Proof. unfold bind, after. intros ->. destruct (f a s1) as [[o s2] l2]. reflexivity. Qed.

Lemma bind_Raise {A B} (m : M S A) (f : A -> M S B) s e s1 l1 :
  m s = (Raise e, s1, l1) -> bind m f s = (Raise e, s1, l1).
Proof. unfold bind. intros ->. reflexivity. Qed.

Lemma bind_inv_Return {A B} (m : M S A) (f : A -> M S B) s b s2 lg :
  bind m f s = (Return b, s2, lg) ->
  exists a s1 l1 l2,
    m s = (Return a, s1, l1) /\ f a s1 = (Return b, s2, l2) /\ lg = l1 ++ l2.
Proof.
  unfold bind. destruct (m s) as [[[a|e] s1] l1]; [|discriminate].
  destruct (f a s1) as [[o s2'] l2] eqn:Ef. intros [= -> -> <-].
  eauto 10.
Qed.

Lemma ret_inv {A} (a b : A) (s s' : S) lg :
  ret a s = (Return b, s', lg) -> b = a.
Proof. intros [= -> _ _]. reflexivity. Qed.

(** A preorder that every run of the body respects relates the value a
    loop starts with to the one it ends with. *)
Lemma for_each_invariant {A B} (R : B -> B -> Prop) `{!Reflexive R, !Transitive R}
      (body : A -> B -> M S B) (xs : list A) :
  (forall x b s b' s' lg, x ∈ xs -> body x b s = (Return b', s', lg) -> R b b') ->
  forall b s b' s' lg, for_each xs body b s = (Return b', s', lg) -> R b b'.
Proof.
  induction xs as [|x xs IH]; intros Hbody b s b' s' lg; simpl.
  - intros H. apply ret_inv in H as ->. reflexivity.
  - intros H. apply bind_inv_Return in H as (b1 & s1 & l1 & l2 & H1 & H2 & _).
    transitivity b1.
    + eapply Hbody; [left | exact H1].
    + eapply IH; [|exact H2]. intros; eapply Hbody; [right|]; eauto.
Qed.
End Monad_facts.

Ltac inv_bind H :=
  unfold mbind, M_bind in H;
  let a := fresh "a" in let s1 := fresh "s" in
  let l1 := fresh "lg" in let l2 := fresh "lg" in
  let H1 := fresh "Hm" in
  apply bind_inv_Return in H as (a & s1 & l1 & l2 & H1 & H & ->).

Lemma for_gen_invariant {B} (R : B -> B -> Prop) `{!Reflexive R, !Transitive R}
      (body : pyval -> B -> M env B) (g : gen) :
  (forall v b s b' s' lg, body v b s = (Return b', s', lg) -> R b b') ->
  forall b s b' s' lg, for_gen g body b s = (Return b', s', lg) -> R b b'.
Proof.
  intros Hbody. induction g as [|v k IH|A m k IH]; intros b s b' s' lg; simpl.
  - intros H. apply ret_inv in H as ->. reflexivity.
  - intros H. apply bind_inv_Return in H as (b1 & s1 & l1 & l2 & H1 & H2 & _).
    transitivity b1; [eapply Hbody | eapply IH]; eauto.
  - intros H. apply bind_inv_Return in H as (x & s1 & l1 & l2 & H1 & H2 & _).
    eapply IH; eauto.
Qed.

Lemma drain_yields_all (P : pyval -> Prop) (g : gen) :
  yields_all P g ->
  forall s ys e s' lg, drain g s = (ys, e, s', lg) -> Forall P ys.
Proof.
  induction g as [|v k IH|A m k IH]; simpl.
  - intros _ s ys e s' lg [= <- _ _ _]. constructor.
  - intros [Hv Hk] s ys e s' lg. destruct (drain k s) as [[[vs e1] s1] l1] eqn:Hd.
    intros [= <- _ _ _]. constructor; [exact Hv | eapply IH; eauto].
  - intros Hk s ys e s' lg. destruct (m s) as [[[x|e1] s1] l1] eqn:Hm.
    + destruct (drain (k x) s1) as [[[vs e2] s2] l2] eqn:Hd.
      intros [= <- _ _ _]. eapply IH; eauto.
    + intros [= <- _ _ _]. constructor.
Qed.

Global Instance on_snd_refl {A B} (R : B -> B -> Prop) `{!Reflexive R} :
  Reflexive (@on_snd A B R).
Proof. intros x. unfold on_snd. reflexivity. Qed.
Global Instance on_snd_trans {A B} (R : B -> B -> Prop) `{!Transitive R} :
  Transitive (@on_snd A B R).
Proof. intros x y z. unfold on_snd. apply transitivity. Qed.

Global Instance grows_refl : Reflexive grows.
Proof. intros l. exists []. symmetry. apply app_nil_r. Qed.
Global Instance grows_trans : Transitive grows.
Proof.
  intros l1 l2 l3 [e1 H1] [e2 H2]. exists (e1 ++ e2).
  rewrite H2, H1. symmetry. apply app_assoc.
Qed.

Lemma grows_add_node n l : grows l (add_node n l).
Proof. exists []. symmetry. apply app_nil_r. Qed.
Lemma grows_add_edge e l : grows l (add_edge e l).
Proof. exists []. symmetry. apply app_nil_r. Qed.
Lemma grows_add_error e l : grows l (add_error e l).
Proof. exists [e]. reflexivity. Qed.
Lemma grows_count_node l : grows l (count_node l).
Proof. exists []. symmetry. apply app_nil_r. Qed.
Lemma grows_count_transformation l : grows l (count_transformation l).
Proof. exists []. symmetry. apply app_nil_r. Qed.

Global Instance unmatched_step_refl raising : Reflexive (unmatched_step raising).
Proof.
  intros l. split; [reflexivity|]. exists [], [].
  rewrite !app_nil_r. auto.
Qed.
Global Instance unmatched_step_trans raising : Transitive (unmatched_step raising).
Proof.
  intros l1 l2 l3 (He1 & n1 & e1 & Hn1 & Hr1 & Hc1 & Hz1) (He2 & n2 & e2 & Hn2 & Hr2 & Hc2 & Hz2).
  split; [congruence|]. exists (n1 ++ n2), (e1 ++ e2).
  rewrite Hn2, Hn1, Hr2, Hr1, !app_assoc, filter_app, !length_app, Hc1, Hc2.
  split; [reflexivity|]. split; [reflexivity|]. split; [reflexivity|].
  intros Hr. destruct (Hz1 Hr) as [-> ->], (Hz2 Hr) as [-> ->]. auto.
Qed.

(** ** Python's string methods and the built-in transformers on small inputs *)

Example py_str_negative : py_str (PInt (-5)) = "-5".
Proof. reflexivity. Qed.

Example py_split_keeps_empty_pieces : py_split "a,b,,c" "," = ["a"; "b"; ""; "c"].
Proof. reflexivity. Qed.

Example py_split_empty_string : py_split "" "," = [""].
Proof. reflexivity. Qed.

Example py_split_long_separator : py_split "x::y::" "::" = ["x"; "y"; ""].
Proof. reflexivity. Qed.

Example py_strip_both_ends : py_strip "__a_b__" "_" = "a_b".
Proof. reflexivity. Qed.

Example py_strip_no_chars : py_strip " a " "" = " a ".
Proof. reflexivity. Qed.

Example sanitize_quote : sanitize "it's" = "it`s".
Proof. reflexivity. Qed.

(** [split] on [;] yields each non-empty piece. *)
Example split_pieces :
  drain (call no_re_sub no_format_map
              (mkTransformer kind.split (Some "Disease") (Some []) None (Some ["ids"])
                 (Some accept_all)
                 (Parameters (Some ";") None None None None None None None None None))
              (PInt 0))
        (set_row (<["ids" := PStr "D001;;D002"]> ∅) initial)
  = ([PStr "D001"; PStr "D002"], None, set_row (<["ids" := PStr "D001;;D002"]> ∅) initial, []).
Proof. vm_compute. reflexivity. Qed.

(** [translate] rewrites the cell in the row and yields the translation. *)
Example translate_rewrites_row :
  drain (call no_re_sub no_format_map
              (mkTransformer kind.translate (Some "Disease") (Some []) None
                 (Some ["disease_id"]) (Some accept_all)
                 (Parameters None None None (Some [(PStr "D001", PStr "BreastCancer")])
                             None None None None None None))
              (PInt 0))
        (set_row gene_disease_row initial)
  = ([PStr "BreastCancer"], None,
     set_row (<["disease_id" := PStr "BreastCancer"]> gene_disease_row) initial, []).
Proof. vm_compute. reflexivity. Qed.

(** A [map] with no [raise_errors] attribute, on a column that the row does
    not have: the error is logged, and reading the attribute raises. *)
Example map_missing_column :
  drain (call no_re_sub no_format_map quoted_map (PInt 0)) (set_row gene_disease_row initial)
  = ([], Some AttributeError, set_row gene_disease_row initial,
     [ErrorLog TransformerDataError]).
Proof. vm_compute. reflexivity. Qed.

(** ** The type registry *)

Lemma check_properties_warns (name : string) (cls : class_desc)
      (properties : list (Transformer * string)) (module : gmap string class_desc) :
  cls <> NotAType ->
  check_properties name cls properties module
  = (Return tt, module,
     (fun p => WarningLog (PropertyNotInFields p name))
       <$> filter (fun p => p ∉ fields cls) (List.map snd properties)).
Proof.
  intros Hcls. unfold check_properties.
  assert (Hk : exists known, names_in_fields cls module = (Return known, module, [])
                             /\ forall p, p ∈ known <-> p ∈ fields cls).
  { destruct cls;
      [eexists; split; [reflexivity|tauto]
      | exists []; split; [reflexivity|simpl; tauto]
      | congruence]. }
  destruct Hk as (known & Hk & Hin).
  unfold mbind, M_bind. rewrite (bind_Return _ _ _ _ _ _ Hk).
  generalize (List.map snd properties) as ps. intros ps.
  assert (forall u, for_each ps (fun p (_ : unit) =>
             if bool_decide (p ∈ known) then ret tt
             else warn (PropertyNotInFields p name)) u module
          = (Return tt, module,
             (fun p => WarningLog (PropertyNotInFields p name))
               <$> filter (fun p => p ∉ fields cls) ps)) as ->; [|reflexivity].
  induction ps as [|p ps IH]; intros [].
  - reflexivity.
  - simpl. unfold mbind, M_bind. rewrite filter_cons.
    case_bool_decide as Hp.
    + rewrite (bind_Return _ _ _ tt module [] eq_refl), IH.
      rewrite decide_False; [reflexivity|]. rewrite <- Hin. tauto.
    + rewrite (bind_Return _ _ _ tt module [WarningLog (PropertyNotInFields p name)] eq_refl), IH.
      rewrite decide_True; [reflexivity|]. rewrite <- Hin. tauto.
Qed.

(** C6.  Declaring a node type is idempotent.  When the name is bound to a
    node class, [make_node_class] returns that class and leaves the module as
    it is, logging one warning for each requested property that is not among
    the fields of the class.  When the name is free, the class is registered
    and its [fields()] are exactly the requested property names.  A class
    that is declared again keeps the fields it was declared with. *)
Theorem make_node_class_idempotent (name : string)
        (properties : list (Transformer * string)) (module : gmap string class_desc) :
  (forall registered,
      module !! name = Some (NodeClass registered) ->
      make_node_class name properties module
      = (Return name, module,
         (fun p => WarningLog (PropertyNotInFields p name))
           <$> filter (fun p => p ∉ List.map snd registered) (List.map snd properties)))
  /\ (module !! name = None ->
      make_node_class name properties module
      = (Return name, <[name := NodeClass properties]> module, [])
      /\ fields (NodeClass properties) = List.map snd properties)
  /\ (forall registered again module' lg,
        module !! name = Some (NodeClass registered) ->
        make_node_class name again module = (Return name, module', lg) ->
        fields <$> module' !! name = Some (List.map snd registered)).
Proof.
  split; [|split].
  - intros registered Hreg. unfold make_node_class.
    unfold mbind, M_bind, bind, get. rewrite Hreg.
    rewrite check_properties_warns by discriminate. simpl. rewrite app_nil_r. reflexivity.
  - intros Hnone. split; [|reflexivity]. unfold make_node_class.
    unfold mbind, M_bind, bind, get. rewrite Hnone. reflexivity.
  - intros registered again module' lg Hreg. unfold make_node_class.
    unfold mbind, M_bind, bind, get. rewrite Hreg.
    rewrite check_properties_warns by discriminate. simpl.
    intros [= <- _]. rewrite Hreg. reflexivity.
Qed.

(** C5.  An edge type declared with target [A] under a free name, then
    declared again with target [B], is registered with the target-type list
    [[A; B]], and with the source type and the fields of its first
    declaration. *)
Theorem make_edge_class_appends (name source_t source_t' A B : string)
        (properties properties' : list (Transformer * string))
        (module : gmap string class_desc) :
  module !! name = None ->
  exists module' lg,
    (make_edge_class name source_t A properties;;
     make_edge_class name source_t' B properties') module = (Return name, module', lg)
    /\ module' !! name = Some (EdgeClass properties source_t [A; B])
    /\ (target_type <$> module' !! name) = Some (Some [A; B])
    /\ (source_type <$> module' !! name) = Some (Some source_t).
Proof.
  intros Hnone.
  assert (H1 : make_edge_class name source_t A properties module
               = (Return name, <[name := EdgeClass properties source_t [A]]> module, [])).
  { unfold make_edge_class, mbind, M_bind, bind, get. rewrite Hnone. reflexivity. }
  assert (H2 : make_edge_class name source_t' B properties'
                 (<[name := EdgeClass properties source_t [A]]> module)
               = (Return name, <[name := EdgeClass properties source_t [A; B]]> module,
                  (fun p => WarningLog (PropertyNotInFields p name))
                    <$> filter (fun p => p ∉ []) (List.map snd properties'))).
  { unfold make_edge_class, mbind, M_bind, bind, get.
    rewrite (lookup_insert_eq module name (EdgeClass properties source_t [A])).
    rewrite check_properties_warns by discriminate.
    unfold module_set, modify, ret.
    rewrite (insert_insert_eq module name (EdgeClass properties source_t ([A] ++ [B]))
                              (EdgeClass properties source_t [A])).
    simpl. rewrite !app_nil_r. reflexivity. }
  unfold mbind, M_bind. rewrite (bind_Return _ _ _ _ _ _ H1), H2.
  exists (<[name := EdgeClass properties source_t [A; B]]> module). eexists.
  split; [reflexivity|].
  rewrite (lookup_insert_eq module name (EdgeClass properties source_t [A; B])). auto.
Qed.

(** ** Identifiers *)

Lemma make_id_eq (self : PandasAdapter.t) (entry_type : string) (entry_name : pyval) (s : env) :
  make_id self entry_type entry_name s =
  let ws := if is_str entry_name then [] else [WarningLog (IdentifierNotString entry_type)] in
  let sep := PandasAdapter.type_affix_sep self in
  let id := match PandasAdapter.type_affix self with
            | prefix => entry_type +:+ sep +:+ py_str entry_name
            | suffix => py_str entry_name +:+ sep +:+ entry_type
            | none => py_str entry_name
            end in
  if String.eqb id ""
  then (if PandasAdapter.raise_errors self then Raise DeclarationError else Return None,
        s, ws ++ [ErrorLog DeclarationError])
  else (Return (Some id), s, ws).
Proof.
  unfold make_id. cbv zeta.
  destruct (is_str entry_name);
    destruct (String.eqb _ ""); try reflexivity;
    unfold a_error; destruct (PandasAdapter.raise_errors self); reflexivity.
Qed.

(** C7.  The identifier made for a type name [T] and a value [v] is
    [T sep v] under the prefix policy, [v sep T] under the suffix policy and
    [v] alone under the policy none, whenever that string is not empty; two
    constructions with the same type, value, policy and separator give the
    same identifier. *)
Theorem make_id_affix (self : PandasAdapter.t) (T : string) (v : pyval) (s : env) :
  (PandasAdapter.type_affix self = prefix ->
   T +:+ PandasAdapter.type_affix_sep self +:+ py_str v <> "" ->
   exists lg, make_id self T v s
              = (Return (Some (T +:+ PandasAdapter.type_affix_sep self +:+ py_str v)), s, lg))
  /\ (PandasAdapter.type_affix self = suffix ->
      py_str v +:+ PandasAdapter.type_affix_sep self +:+ T <> "" ->
      exists lg, make_id self T v s
                 = (Return (Some (py_str v +:+ PandasAdapter.type_affix_sep self +:+ T)), s, lg))
  /\ (PandasAdapter.type_affix self = none ->
      py_str v <> "" ->
      exists lg, make_id self T v s = (Return (Some (py_str v)), s, lg))
  /\ (forall (self' : PandasAdapter.t) (s' s1 s1' : env) id id' lg lg',
        PandasAdapter.type_affix self' = PandasAdapter.type_affix self ->
        PandasAdapter.type_affix_sep self' = PandasAdapter.type_affix_sep self ->
        make_id self T v s = (Return (Some id), s1, lg) ->
        make_id self' T v s' = (Return (Some id'), s1', lg') ->
        id = id').
Proof.
  assert (Hne : forall x : string, x <> "" -> String.eqb x "" = false)
    by (intros x Hx; apply String.eqb_neq; exact Hx).
  repeat split.
  - intros Ha Hid. rewrite make_id_eq. cbv zeta. rewrite Ha, (Hne _ Hid). eauto.
  - intros Ha Hid. rewrite make_id_eq. cbv zeta. rewrite Ha, (Hne _ Hid). eauto.
  - intros Ha Hid. rewrite make_id_eq. cbv zeta. rewrite Ha, (Hne _ Hid). eauto.
  - intros self' s' s1 s1' id id' lg lg' Ha Hs. rewrite !make_id_eq. cbv zeta.
    rewrite Ha, Hs.
    destruct (String.eqb _ "").
    + destruct (PandasAdapter.raise_errors self); discriminate.
    + intros H1 H2. congruence.
Qed.

(** C10.  [make_id] never returns the empty string: it returns an
    identifier that is not empty, or it logs a declaration error and then
    raises it or returns [None], as the adapter's policy says.  Under the
    policy none an empty value takes the second path. *)
Theorem make_id_never_empty (self : PandasAdapter.t) (entry_type : string)
        (entry_name : pyval) (s : env) :
  ((exists id lg, make_id self entry_type entry_name s = (Return (Some id), s, lg) /\ id <> "")
   \/ (exists lg, make_id self entry_type entry_name s
                  = (if PandasAdapter.raise_errors self
                     then Raise DeclarationError else Return None,
                     s, lg ++ [ErrorLog DeclarationError])))
  /\ (PandasAdapter.type_affix self = none -> py_str entry_name = "" ->
      exists lg, make_id self entry_type entry_name s
                 = (if PandasAdapter.raise_errors self
                    then Raise DeclarationError else Return None,
                    s, lg ++ [ErrorLog DeclarationError])).
Proof.
  rewrite make_id_eq. cbv zeta. split.
  - destruct (String.eqb _ "") eqn:E.
    + right. eauto.
    + left. eexists _, _. split; [reflexivity|].
      intros Hid. rewrite Hid in E. discriminate.
  - intros -> ->. simpl. eauto.
Qed.

(** ** Transformers *)

Lemma create_Return (self : Transformer) (item : pyval) s res s' lg :
  create self item s = (Return res, s', lg) ->
  truthy res = true -> passed_create self res.
Proof.
  unfold create. destruct (output_validator self) as [validator|] eqn:Hv; [|discriminate].
  destruct (validator (py_str item)) eqn:Hi.
  - intros H Hres. apply ret_inv in H as ->. exists item, validator.
    repeat split; auto. simpl in Hres. intros Heq. rewrite Heq in Hres. discriminate.
  - intros H. apply ret_inv in H as ->. discriminate.
  - intros H. inv_bind H. apply ret_inv in H as ->. discriminate.
Qed.

Lemma yield_created_all (self self' : Transformer) (item : M env pyval) (k : gen) :
  output_validator self' = output_validator self ->
  yields_all (passed_create self) k ->
  yields_all (passed_create self) (yield_created self' item k).
Proof.
  intros Hv Hk. unfold yield_created. simpl. intros s res s' lg H.
  inv_bind H. destruct (truthy res) eqn:Hres; [|exact Hk].
  split; [|exact Hk].
  destruct (create_Return _ _ _ _ _ _ H Hres) as (it & v & H1 & H2 & H3 & H4).
  exists it, v. rewrite <- Hv. auto.
Qed.

Lemma GRaise_all P e : yields_all P (GRaise e).
Proof. simpl. discriminate. Qed.

Lemma for_columns_all P (self : Transformer) (body : string -> gen -> gen) :
  (forall key k, yields_all P k -> yields_all P (body key k)) ->
  yields_all P (for_columns self body).
Proof.
  intros Hbody. unfold for_columns. destruct (columns self) as [cs|]; [|apply GRaise_all].
  induction cs as [|key cs IH]; simpl; [exact I | apply Hbody, IH].
Qed.

Section Transformer_facts.
Variable re_sub : string -> string -> string -> outcome string.
Variable format_map : string -> gmap string pyval -> outcome string.

Lemma map_call_all (self self' : Transformer) :
  output_validator self' = output_validator self ->
  yields_all (passed_create self) (map_call self').
Proof.
  intros Hv. unfold map_call. simpl. intros _ _ _ _ _.
  apply for_columns_all. intros key k Hk. apply yield_created_all; assumption.
Qed.

Lemma cat_loop_all (self : Transformer) cs acc :
  yields_all (passed_create self) (cat_loop self cs acc).
Proof.
  revert acc. induction cs as [|key cs IH]; intros acc; simpl; [exact I|].
  intros s x s' lg _. apply yield_created_all; [reflexivity | apply IH].
Qed.

Lemma call_all (self : Transformer) (i : pyval) :
  builtin self -> yields_all (passed_create self) (call re_sub format_map self i).
Proof.
  unfold builtin, call. destruct (class self); intros Hb.
  - unfold split_call. apply for_columns_all. intros key k Hk. simpl.
    intros s items s' lg _. induction items as [|item items IH]; simpl; [exact Hk|].
    apply (yield_created_all self self); [reflexivity | exact IH].
  - unfold cat_call. destruct (columns self); [apply cat_loop_all | apply GRaise_all].
  - unfold cat_format_call. destruct (format_string (params self)) as [fs|]; [|apply GRaise_all].
    destruct (String.eqb fs ""); [simpl; auto|].
    apply yield_created_all; [reflexivity | exact I].
  - apply (yield_created_all self self); [reflexivity | exact I].
  - apply map_call_all. reflexivity.
  - unfold translate_call. simpl. intros _ _ _ _ _.
    destruct (columns self); [|apply GRaise_all]. simpl. intros _ _ _ _ _.
    apply map_call_all. reflexivity.
  - unfold string_call. simpl. intros _ _ _ _ _.
    apply (yield_created_all self self); [reflexivity | exact I].
  - unfold replace_call. apply for_columns_all. intros key k Hk.
    apply yield_created_all; [reflexivity | exact Hk].
  - contradiction.
Qed.

(** C4, as the code has it.  Every value yielded by a transformer of
    [ontoweaver.transformer] went through [create]: it is the string of the
    extracted item as [str] gives it, with no character replaced, it is not
    empty, and the output validator accepted it.  [create] returns that
    string when the validator accepts it and [None] when the validator
    returns a false value; when the validator raises its schema errors,
    [create] logs a data-validation error and then raises it, or returns
    [False], as the [raise_errors] attribute of the transformer says, so
    that the value is not yielded. *)
Theorem yielded_values_passed_create (self : Transformer) (i : pyval) :
  builtin self ->
  (forall s ys e s' lg,
      drain (call re_sub format_map self i) s = (ys, e, s', lg) ->
      Forall (passed_create self) ys)
  /\ (forall item validator raising s,
        output_validator self = Some validator ->
        raise_errors (params self) = Some raising ->
        create self item s
        = match validator (py_str item) with
          | Accept => (Return (PStr (py_str item)), s, [])
          | Reject => (Return PNone, s, [])
          | SchemaErrors =>
              (if raising then Raise DataValidationError else Return (PBool false),
               s, [ErrorLog DataValidationError])
          end).
Proof.
  intros Hb. split.
  - intros s ys e s' lg. apply drain_yields_all, call_all, Hb.
  - intros item validator raising s Hv Hr. unfold create. rewrite Hv, Hr.
    destruct (validator (py_str item)); try reflexivity.
    destruct raising; reflexivity.
Qed.

Lemma cat_loop_drain (self : Transformer) (validator : string -> verdict)
      (cs : list string) (cells : list pyval) (s : env) (acc : string) :
  output_validator self = Some validator ->
  (forall x, validator x = Accept) ->
  Forall2 (fun key cell => row s !! key = Some cell) cs cells ->
  drain (cat_loop self cs acc) s
  = (PStr <$> filter (fun x => x <> "") (running acc cells), None, s, []).
Proof.
  intros Hv Hall Hrow. revert acc.
  induction Hrow as [|key cell cs cells Hkey Hrow IH]; intros acc; [reflexivity|].
  simpl. unfold mbind, M_bind, bind, row_get. rewrite Hkey. simpl.
  unfold create. rewrite Hv, Hall. simpl.
  rewrite filter_cons. destruct (String.eqb (acc +:+ py_str cell) "") eqn:E; simpl.
  - apply String.eqb_eq in E. rewrite decide_False by (intros H; apply H, E).
    rewrite IH. reflexivity.
  - apply String.eqb_neq in E. rewrite decide_True by exact E.
    rewrite IH. reflexivity.
Qed.

(** C3, what the code does.  With a validator that accepts everything, a
    [cat] transformer whose columns are all in the row yields, column after
    column, each value of the running concatenation that is not empty: one
    value for each column, not one value for the row. *)
Theorem cat_yields_running (self : Transformer) (validator : string -> verdict)
        (cs : list string) (cells : list pyval) (s : env) (i : pyval) :
  class self = kind.cat ->
  columns self = Some cs ->
  output_validator self = Some validator ->
  (forall x, validator x = Accept) ->
  Forall2 (fun key cell => row s !! key = Some cell) cs cells ->
  drain (call re_sub format_map self i) s
  = (PStr <$> filter (fun x => x <> "") (running "" cells), None, s, []).
Proof.
  intros Hk Hc Hv Hall Hrow. unfold call, cat_call. rewrite Hk, Hc.
  eapply cat_loop_drain; eauto.
Qed.
End Transformer_facts.

(** ** The engine *)

Section Engine_facts.
Variable re_sub : string -> string -> string -> outcome string.
Variable format_map : string -> gmap string pyval -> outcome string.
Variable self : PandasAdapter.t.

Lemma redirected_edge_grows i transformer t target_node_id s_id l s l' s' lg :
  redirected_edge re_sub format_map self i transformer t target_node_id s_id l s
  = (Return l', s', lg) -> grows l l'.
Proof.
  unfold redirected_edge. intros H. do 4 inv_bind H.
  apply ret_inv in H as ->. apply grows_add_edge.
Qed.

Lemma find_subject_grows i transformer fs target_node_id t st s st' s' lg :
  find_subject re_sub format_map self i transformer fs target_node_id t st s
  = (Return st', s', lg) -> grows (snd st) (snd st').
Proof.
  unfold find_subject. intros H. inv_bind H.
  destruct (String.eqb fs a).
  - inv_bind H. apply ret_inv in H as ->. simpl.
    eapply (for_gen_invariant grows); [|exact Hm0].
    intros; eapply redirected_edge_grows; eauto.
  - apply ret_inv in H as ->. reflexivity.
Qed.

Lemma make_edges_grows i transformer src tgt l s l' s' lg :
  make_edges re_sub format_map self i transformer src tgt l s = (Return l', s', lg) ->
  grows l l'.
Proof.
  unfold make_edges. intros H. destruct (from_subject (params transformer)) as [fs|].
  - inv_bind H.
    assert (Hst : grows l (snd a)).
    { change l with (snd (false, l)).
      eapply (for_each_invariant (on_snd grows)); [|exact Hm].
      intros; eapply find_subject_grows; eauto. }
    destruct (fst a).
    + apply ret_inv in H as ->. exact Hst.
    + inv_bind H. apply ret_inv in H as ->.
      etransitivity; [exact Hst | apply grows_add_error].
  - do 3 inv_bind H. apply ret_inv in H as ->. apply grows_add_edge.
Qed.

Lemma process_target_grows i transformer src target_id l s l' s' lg :
  process_target re_sub format_map self i transformer src target_id l s = (Return l', s', lg) ->
  grows l l'.
Proof.
  unfold process_target. intros H. destruct (truthy target_id).
  - do 4 inv_bind H. apply make_edges_grows in H.
    etransitivity; [apply grows_count_node|].
    etransitivity; [apply grows_add_node | exact H].
  - inv_bind H. apply ret_inv in H as ->.
    etransitivity; [apply grows_count_node | apply grows_add_error].
Qed.

Lemma process_transformer_grows i src transformer l s l' s' lg :
  process_transformer re_sub format_map self i src transformer l s = (Return l', s', lg) ->
  grows l l'.
Proof.
  unfold process_transformer. intros H.
  etransitivity; [apply grows_count_transformation|].
  eapply (for_gen_invariant grows); [|exact H].
  intros; eapply process_target_grows; eauto.
Qed.


(** C9.  When the subject transformer yields no value and raises nothing,
    processing the row ends with an [IndexError]: nothing is logged or
    recorded by the engine, whatever the adapter's policy on errors. *)
Theorem empty_subject_IndexError (i : pyval) (r : gmap string pyval)
        (s s1 : env) (lg : list log_record) :
  collect (call re_sub format_map (PandasAdapter.subject_transformer self) i) (set_row r s)
  = (Return [], s1, lg) ->
  process_row re_sub format_map self (i, r) s = (Raise IndexError, s1, lg).
Proof.
  intros H. unfold process_row, mbind, M_bind.
  rewrite (bind_Return _ _ _ tt (set_row r s) [] eq_refl).
  rewrite (bind_Return _ _ _ _ _ _ H). unfold after. simpl. rewrite app_nil_r. reflexivity.
Qed.

(** C2.  When the subject transformer yields more than one value, a
    transformer-interface error is logged as soon as the values are
    collected.  Under the raising policy it is raised and the row is
    abandoned; otherwise the row goes on, and when it completes that error
    is the first of the row's recorded errors. *)
Theorem multiple_subject_ids (i : pyval) (r : gmap string pyval) (s s1 : env)
        (ids : list pyval) (lg : list log_record) :
  collect (call re_sub format_map (PandasAdapter.subject_transformer self) i) (set_row r s)
  = (Return ids, s1, lg) ->
  (1 < length ids)%nat ->
  exists o s' lg',
    process_row re_sub format_map self (i, r) s
    = (o, s', lg ++ ErrorLog TransformerInterfaceError :: lg')
    /\ (PandasAdapter.raise_errors self = true ->
        o = Raise TransformerInterfaceError /\ s' = s1 /\ lg' = [])
    /\ (forall l, o = Return l ->
                  PandasAdapter.raise_errors self = false
                  /\ head (local_errors l) = Some TransformerInterfaceError).
Proof.
  intros H Hlen. unfold process_row, mbind, M_bind.
  rewrite (bind_Return _ _ _ tt (set_row r s) [] eq_refl).
  rewrite (bind_Return _ _ _ _ _ _ H).
  apply Nat.ltb_lt in Hlen. rewrite Hlen. unfold a_error.
  destruct (PandasAdapter.raise_errors self) eqn:Hraise.
  - unfold after. simpl. eexists _, _, _. split; [reflexivity|]. split; [auto | discriminate].
  - match goal with
    | |- context [bind (bind ?m ?f) ?k s1] =>
        rewrite (bind_Return (bind m f) k s1
                   (add_error TransformerInterfaceError (Locals [] [] [] 1 0 0)) s1
                   [ErrorLog TransformerInterfaceError] eq_refl)
    end.
    match goal with
    | |- context [after [ErrorLog TransformerInterfaceError] ?c] =>
        destruct c as [[o s'] lg'] eqn:Hrest
    end.
    unfold after. simpl. eexists o, s', lg'. split; [reflexivity|]. split; [discriminate|].
    intros l ->. split; [reflexivity|].
    do 4 inv_bind Hrest.
    assert (Ha2 : grows (add_error TransformerInterfaceError (Locals [] [] [] 1 0 0)) a2).
    { destruct (id_truthy a1).
      - do 2 inv_bind Hm2. apply ret_inv in Hm2 as ->. apply grows_add_node.
      - inv_bind Hm2. apply ret_inv in Hm2 as ->. apply grows_add_error. }
    assert (Hl : grows a2 l).
    { eapply (for_each_invariant grows); [|exact Hrest].
      intros; eapply process_transformer_grows; eauto. }
    destruct Ha2 as [e1 H1], Hl as [e2 H2]. rewrite H2, H1. reflexivity.
Qed.

End Engine_facts.

Section Example.
Variable re_sub : string -> string -> string -> outcome string.
Variable format_map : string -> gmap string pyval -> outcome string.

(** C1.  The mapping with subject [Gene] from [gene_id] and a [map] on
    [disease_id] to [Disease] via [ASSOCIATED_WITH], run with the suffix
    policy and the separator [":"] over the one row [{gene_id: "BRCA1",
    disease_id: "D001"}], whose two values the output validators accept,
    leaves in the adapter exactly the two node tuples and the edge tuple of
    the specification, and no error. *)
Theorem gene_disease_example (subject_validator target_validator : string -> verdict)
        (raise_errors : bool) (i : pyval) :
  subject_validator "BRCA1" = Accept ->
  target_validator "D001" = Accept ->
  run re_sub format_map
      (gene_disease_mapping subject_validator target_validator raise_errors
                            [(i, gene_disease_row)])
      initial
  = (Return (1, 1, 1)%nat,
     Env gene_disease_row
         [("BRCA1:Gene", "Gene", ∅); ("D001:Disease", "Disease", ∅)]
         [("", "BRCA1:Gene", "D001:Disease", "ASSOCIATED_WITH", ∅)]
         [],
     []).
Proof.
  intros Hs Ht. vm_compute. rewrite Hs. vm_compute. rewrite Ht. vm_compute. reflexivity.
Qed.
End Example.

(** ** The statements at concrete inputs *)

Lemma gene_disease_example_witness :
  run no_re_sub no_format_map
      (gene_disease_mapping accept_all accept_all true [(PInt 0, gene_disease_row)]) initial
  = (Return (1, 1, 1)%nat,
     Env gene_disease_row
         [("BRCA1:Gene", "Gene", ∅); ("D001:Disease", "Disease", ∅)]
         [("", "BRCA1:Gene", "D001:Disease", "ASSOCIATED_WITH", ∅)]
         [],
     []).
Proof.
  apply (gene_disease_example no_re_sub no_format_map accept_all accept_all true (PInt 0));
    reflexivity.
Defined.

Lemma multiple_subject_ids_witness :
  (1 < length [PStr "BRCA1"; PStr "BRCC1"])%nat
  /\ exists o s' lg',
      process_row no_re_sub no_format_map two_subjects_mapping
                  (PInt 0, two_subjects_row) initial
      = (o, s', [] ++ ErrorLog TransformerInterfaceError :: lg')
      /\ (PandasAdapter.raise_errors two_subjects_mapping = true ->
          o = Raise TransformerInterfaceError
          /\ s' = set_row two_subjects_row initial /\ lg' = [])
      /\ (forall l, o = Return l ->
                    PandasAdapter.raise_errors two_subjects_mapping = false
                    /\ head (local_errors l) = Some TransformerInterfaceError).
Proof.
  split; [simpl; lia|].
  apply (multiple_subject_ids no_re_sub no_format_map two_subjects_mapping (PInt 0)
           two_subjects_row initial (set_row two_subjects_row initial)
           [PStr "BRCA1"; PStr "BRCC1"] []);
    [vm_compute; reflexivity | simpl; lia].
Defined.

Lemma cat_yields_running_witness :
  drain (call no_re_sub no_format_map cat_ab (PInt 0)) (set_row cat_row initial)
  = ([PStr "x"; PStr "xy"], None, set_row cat_row initial, []).
Proof.
  apply (cat_yields_running no_re_sub no_format_map cat_ab accept_all
           ["a"; "b"] [PStr "x"; PStr "y"] (set_row cat_row initial) (PInt 0));
    try reflexivity.
  repeat constructor.
Defined.

(** C4 fails as stated: a [map] on the cell [it's] yields [it's], with its
    single quote, where the sanitised string is [it`s]. *)
Lemma create_keeps_single_quotes :
  drain (call no_re_sub no_format_map quoted_map (PInt 0)) (set_row quoted_row initial)
  = ([PStr "it's"], None, set_row quoted_row initial, [])
  /\ sanitize "it's" = "it`s"
  /\ "it's" <> "it`s".
Proof. split; [vm_compute; reflexivity | split; [reflexivity | discriminate]]. Qed.

Lemma yielded_values_passed_create_witness :
  Forall (passed_create quoted_map) [PStr "it's"].
Proof.
  apply (proj1 (yielded_values_passed_create no_re_sub no_format_map quoted_map (PInt 0) I)
               (set_row quoted_row initial) [PStr "it's"] None
               (set_row quoted_row initial) []).
  vm_compute. reflexivity.
Defined.

Lemma make_edge_class_appends_witness :
  exists module' lg,
    (make_edge_class "ASSOCIATED_WITH" "Gene" "Disease" [];;
     make_edge_class "ASSOCIATED_WITH" "Patient" "Phenotype" []) ∅
    = (Return "ASSOCIATED_WITH", module', lg)
    /\ module' !! "ASSOCIATED_WITH" = Some (EdgeClass [] "Gene" ["Disease"; "Phenotype"])
    /\ (target_type <$> module' !! "ASSOCIATED_WITH") = Some (Some ["Disease"; "Phenotype"])
    /\ (source_type <$> module' !! "ASSOCIATED_WITH") = Some (Some "Gene").
Proof.
  apply (make_edge_class_appends "ASSOCIATED_WITH" "Gene" "Patient" "Disease" "Phenotype"
                                 [] [] ∅).
  reflexivity.
Defined.

Lemma make_node_class_idempotent_witness :
  make_node_class "Gene" [(quoted_map, "name")] ∅
  = (Return "Gene", <["Gene" := NodeClass [(quoted_map, "name")]]> ∅, [])
  /\ make_node_class "Gene" [(quoted_map, "name"); (cat_ab, "alias")]
                     (<["Gene" := NodeClass [(quoted_map, "name")]]> ∅)
     = (Return "Gene", <["Gene" := NodeClass [(quoted_map, "name")]]> ∅,
        [WarningLog (PropertyNotInFields "alias" "Gene")]).
Proof.
  split.
  - apply (proj1 (proj2 (make_node_class_idempotent "Gene" [(quoted_map, "name")] ∅))).
    reflexivity.
  - apply (proj1 (make_node_class_idempotent "Gene" [(quoted_map, "name"); (cat_ab, "alias")]
                   (<["Gene" := NodeClass [(quoted_map, "name")]]> ∅))
                 [(quoted_map, "name")]).
    reflexivity.
Defined.

Lemma make_id_affix_witness :
  exists lg, make_id prefixed_ids "Gene" (PStr "BRCA1") initial
             = (Return (Some "Gene:BRCA1"), initial, lg).
Proof.
  apply (proj1 (make_id_affix prefixed_ids "Gene" (PStr "BRCA1") initial));
    [reflexivity | discriminate].
Defined.



Lemma empty_subject_IndexError_witness :
  process_row no_re_sub no_format_map
              (gene_disease_mapping accept_all accept_all false [(PInt 0, empty_subject_row)])
              (PInt 0, empty_subject_row) initial
  = (Raise IndexError, set_row empty_subject_row initial, []).
Proof.
  apply (empty_subject_IndexError no_re_sub no_format_map
           (gene_disease_mapping accept_all accept_all false [(PInt 0, empty_subject_row)])
           (PInt 0) empty_subject_row initial).
  vm_compute. reflexivity.
Defined.

Lemma make_id_never_empty_witness :
  exists lg, make_id bare_ids "Gene" (PStr "") initial
             = (Return None, initial, lg ++ [ErrorLog DeclarationError]).
Proof.
  apply (proj2 (make_id_never_empty bare_ids "Gene" (PStr "") initial)); reflexivity.
Defined.

(** * More of the code *)

Lemma check_properties_state (name : string) (cls : class_desc)
      (properties : list (Transformer * string)) (module : gmap string class_desc) o module' lg :
  check_properties name cls properties module = (o, module', lg) -> module' = module.
Proof.
  destruct cls.
  - rewrite check_properties_warns by discriminate. intros [= _ <- _]. reflexivity.
  - rewrite check_properties_warns by discriminate. intros [= _ <- _]. reflexivity.
  - unfold check_properties, mbind, M_bind, bind. simpl. intros [= _ <- _]. reflexivity.
Qed.

(** X1.  Declaring a type under a name, as a node class or as an edge
    class and whatever the outcome, leaves every other name of the module
    as it was.  A class already bound to the name is kept; the only change
    it can see is the new target appended to the targets of an edge
    class. *)
Theorem declaring_keeps_other_types (name source_t target_t : string)
        (properties : list (Transformer * string))
        (module module' : gmap string class_desc) (o : outcome string)
        (lg : list log_record) :
  make_node_class name properties module = (o, module', lg)
  \/ make_edge_class name source_t target_t properties module = (o, module', lg) ->
  (forall other, other <> name -> module' !! other = module !! other)
  /\ (forall cls, module !! name = Some cls ->
        module' !! name = Some cls
        \/ exists fields st tt_list,
            cls = EdgeClass fields st tt_list
            /\ module' !! name = Some (EdgeClass fields st (tt_list ++ [target_t]))).
Proof.
  intros [H|H].
  - unfold make_node_class, mbind, M_bind, bind, get in H.
    destruct (module !! name) as [cls|] eqn:Hname.
    + destruct (check_properties name cls properties module) as [[o1 m1] l1] eqn:Hc.
      apply check_properties_state in Hc as ->.
      destruct o1; injection H as _ <- _; (split; [auto|]; intros c [= <-]; auto).
    + unfold module_set, modify in H. simpl in H. injection H as _ <- _. split.
      * intros other Hne. apply lookup_insert_ne. congruence.
      * discriminate.
  - unfold make_edge_class, mbind, M_bind, bind, get in H.
    destruct (module !! name) as [cls|] eqn:Hname.
    + destruct (check_properties name cls properties module) as [[o1 m1] l1] eqn:Hc.
      apply check_properties_state in Hc as ->.
      destruct o1 as [[]|e].
      * destruct cls as [ps|ps st tl|]; simpl in H; injection H as _ <- _.
        -- split; [auto|]. intros c [= <-]. auto.
        -- split.
           ++ intros other Hne. apply lookup_insert_ne. congruence.
           ++ intros c [= <-]. right. exists ps, st, tl. split; [reflexivity|].
              apply (lookup_insert_eq module name).
        -- split; [auto|]. intros c [= <-]. auto.
      * injection H as _ <- _. split; [auto|]. intros c [= <-]. auto.
    + unfold module_set, modify in H. simpl in H. injection H as _ <- _. split.
      * intros other Hne. apply lookup_insert_ne. congruence.
      * discriminate.
Qed.

Lemma make_edge_class_again (name source_t target_t : string)
      (properties fields : list (Transformer * string)) st tt_list
      (module : gmap string class_desc) :
  module !! name = Some (EdgeClass fields st tt_list) ->
  exists lg,
    make_edge_class name source_t target_t properties module
    = (Return name, <[name := EdgeClass fields st (tt_list ++ [target_t])]> module, lg).
Proof.
  intros Hname. unfold make_edge_class, mbind, M_bind, bind, get. rewrite Hname.
  rewrite check_properties_warns by discriminate.
  unfold module_set, modify, ret. simpl. eauto.
Qed.

Lemma declare_edges_loop (name : string) (decls : list edge_declaration)
      fields st tt_list (module : gmap string class_desc) (r : string) :
  module !! name = Some (EdgeClass fields st tt_list) ->
  exists module' lg,
    for_each decls (fun '(source_t, target_t, properties) _ =>
                      make_edge_class name source_t target_t properties) r module
    = (Return (match decls with [] => r | _ => name end), module', lg)
    /\ module' !! name
       = Some (EdgeClass fields st (tt_list ++ List.map (fun d => snd (fst d)) decls))
    /\ forall other, other <> name -> module' !! other = module !! other.
Proof.
  revert module tt_list r. induction decls as [|[[s t] p] decls IH]; intros module tt_list r Hname.
  - exists module, []. simpl. rewrite app_nil_r. auto.
  - simpl. unfold mbind, M_bind.
    destruct (make_edge_class_again name s t p fields st tt_list module Hname) as [l1 H1].
    rewrite (bind_Return _ _ _ _ _ _ H1).
    destruct (IH (<[name := EdgeClass fields st (tt_list ++ [t])]> module) (tt_list ++ [t]) name)
      as (m' & l2 & H2 & H3 & H4).
    { apply (lookup_insert_eq module name). }
    rewrite H2. unfold after. simpl. exists m'. eexists. split.
    { destruct decls; reflexivity. }
    split.
    + rewrite H3, <- app_assoc. reflexivity.
    + intros other Hne. rewrite H4 by exact Hne. apply lookup_insert_ne. congruence.
Qed.

Lemma declare_edges_registered (name : string) (decls : list edge_declaration)
      fields st tt_list (module : gmap string class_desc) :
  module !! name = Some (EdgeClass fields st tt_list) ->
  exists module' lg,
    declare_edges name decls module = (Return name, module', lg)
    /\ module' !! name
       = Some (EdgeClass fields st (tt_list ++ List.map (fun d => snd (fst d)) decls))
    /\ forall other, other <> name -> module' !! other = module !! other.
Proof.
  intros Hname. unfold declare_edges.
  destruct (declare_edges_loop name decls fields st tt_list module name Hname)
    as (m' & lg & H1 & H2 & H3).
  exists m', lg. split; [|auto]. rewrite H1. destruct decls; reflexivity.
Qed.

(** X2.  An edge type declared under a free name and then declared again
    any number of times ends with the fields and the source type of the
    first declaration, and with the targets of all the declarations in
    their order, duplicates included. *)
Theorem edge_targets_accumulate (name source_t target_t : string)
        (properties : list (Transformer * string)) (decls : list edge_declaration)
        (module : gmap string class_desc) :
  module !! name = None ->
  exists module' lg,
    (make_edge_class name source_t target_t properties;; declare_edges name decls) module
    = (Return name, module', lg)
    /\ module' !! name
       = Some (EdgeClass properties source_t
                         (target_t :: List.map (fun d => snd (fst d)) decls)).
Proof.
  intros Hnone.
  assert (H1 : make_edge_class name source_t target_t properties module
               = (Return name, <[name := EdgeClass properties source_t [target_t]]> module, [])).
  { unfold make_edge_class, mbind, M_bind, bind, get. rewrite Hnone. reflexivity. }
  unfold mbind, M_bind. rewrite (bind_Return _ _ _ _ _ _ H1).
  destruct (declare_edges_registered name decls properties source_t [target_t]
              (<[name := EdgeClass properties source_t [target_t]]> module))
    as (m' & l2 & H2 & H3 & _).
  { apply (lookup_insert_eq module name). }
  rewrite H2. unfold after. simpl. eauto.
Qed.

(** X3.  A name shared by a node type and an edge type.  Declaring an edge
    class under the name of a node class raises [AttributeError] (a node
    class has no [target_type]) and leaves the module as it was; declaring
    a node class under the name of an edge class returns the edge class,
    with one warning for each requested property. *)
Theorem name_shared_by_node_and_edge (name source_t target_t : string)
        (properties registered : list (Transformer * string)) (st : string)
        (tt_list : list string) (module : gmap string class_desc) :
  (module !! name = Some (NodeClass registered) ->
   exists lg, make_edge_class name source_t target_t properties module
              = (Raise AttributeError, module, lg))
  /\ (module !! name = Some (EdgeClass registered st tt_list) ->
      make_node_class name properties module
      = (Return name, module,
         (fun p => WarningLog (PropertyNotInFields p name)) <$> List.map snd properties)).
Proof.
  split; intros Hname.
  - unfold make_edge_class, mbind, M_bind, bind, get. rewrite Hname.
    rewrite check_properties_warns by discriminate. simpl. eauto.
  - unfold make_node_class, mbind, M_bind, bind, get. rewrite Hname.
    rewrite check_properties_warns by discriminate. simpl. rewrite app_nil_r.
    f_equal. f_equal. induction (List.map snd properties) as [|p ps IH]; [reflexivity|].
    rewrite filter_cons, decide_True by (intros H; inversion H). rewrite IH. reflexivity.
Qed.

(** X4.  Tuples and elements.  In a class with a name, [as_tuple] after
    [from_tuple] gives the tuple back exactly when its label is not empty
    (an empty label becomes the name of the class); [from_tuple] after
    [as_tuple] gives back every node and every edge that the class
    made. *)
Theorem tuple_round_trip (cls : string) :
  cls <> "" ->
  (forall t : Node.Tuple,
      Node.as_tuple (Node_from_tuple cls t) = t <-> snd (fst t) <> "")
  /\ (forall t : Edge.Tuple,
        Edge.as_tuple (Edge_from_tuple cls t) = t <-> snd (fst t) <> "")
  /\ (forall id properties,
        Node_from_tuple cls (Node.as_tuple (Node.init cls id properties))
        = Node.init cls id properties)
  /\ (forall id_source id_target properties,
        Edge_from_tuple cls (Edge.as_tuple (Edge.init cls id_source id_target properties))
        = Edge.init cls id_source id_target properties).
Proof.
  intros Hcls.
  assert (Hc : String.eqb cls "" = false) by (apply String.eqb_neq, Hcls).
  assert (Hid : forall s, (if String.eqb s "" then "" else s) = s).
  { intros s. destruct (String.eqb s "") eqn:E; [|reflexivity].
    apply String.eqb_eq in E. congruence. }
  split; [|split; [|split]].
  - intros [[id l] p]. unfold Node_from_tuple, Node.as_tuple. simpl. rewrite Hid.
    destruct (String.eqb l "") eqn:E.
    + apply String.eqb_eq in E. subst l. split; [intros [= H]; congruence | congruence].
    + apply String.eqb_neq in E. tauto.
  - intros [[[[id src] tgt] l] p]. unfold Edge_from_tuple, Edge.as_tuple. simpl. rewrite Hid.
    destruct (String.eqb l "") eqn:E.
    + apply String.eqb_eq in E. subst l. split; [intros [= H]; congruence | congruence].
    + apply String.eqb_neq in E. tauto.
  - intros id p. unfold Node_from_tuple, Node.as_tuple, Node.init. simpl.
    rewrite Hc, Hid. reflexivity.
  - intros src tgt p. unfold Edge_from_tuple, Edge.as_tuple, Edge.init. simpl.
    rewrite Hc. reflexivity.
Qed.

Lemma elem_of_All_elements asked (module : gmap string class_desc) name cls :
  (name, cls) ∈ All.elements asked module <-> module !! name = Some cls /\ asked cls = true.
Proof.
  unfold All.elements. rewrite list_elem_of_In, filter_In, <- list_elem_of_In.
  rewrite elem_of_map_to_list. simpl. tauto.
Qed.

Lemma elem_of_All_nodes (module : gmap string class_desc) name :
  name ∈ All.nodes module <-> exists properties, module !! name = Some (NodeClass properties).
Proof.
  unfold All.nodes. rewrite list_elem_of_fmap. split.
  - intros ([n cls] & -> & H). apply elem_of_All_elements in H as [H Hn].
    destruct cls; try discriminate. eauto.
  - intros [ps H]. exists (name, NodeClass ps). split; [reflexivity|].
    apply elem_of_All_elements. auto.
Qed.

Lemma elem_of_All_node_fields (module : gmap string class_desc) p :
  p ∈ All.node_fields module
  <-> exists name properties,
      module !! name = Some (NodeClass properties) /\ p ∈ List.map snd properties.
Proof.
  unfold All.node_fields. rewrite list_elem_of_In, in_concat. split.
  - intros (l & Hl & Hp). apply list_elem_of_In in Hl, Hp.
    apply list_elem_of_fmap in Hl as ([n cls] & -> & H).
    apply elem_of_All_elements in H as [H Hn]. destruct cls; try discriminate. eauto.
  - intros (name & ps & H & Hp). exists (List.map snd ps).
    split; [|apply list_elem_of_In, Hp].
    apply list_elem_of_In, list_elem_of_fmap. exists (name, NodeClass ps).
    split; [reflexivity|]. apply elem_of_All_elements. auto.
Qed.

(** X5.  After a node class was declared under a free name, [All] lists it
    among the nodes and not among the edges, its requested properties are
    among the node fields, the nodes listed before are still listed and
    the edges listed are the same. *)
Theorem declared_node_is_listed (name : string) (properties : list (Transformer * string))
        (module module' : gmap string class_desc) (lg : list log_record) :
  module !! name = None ->
  make_node_class name properties module = (Return name, module', lg) ->
  name ∈ All.nodes module'
  /\ (name ∉ All.edges module')
  /\ (forall p, p ∈ List.map snd properties -> p ∈ All.node_fields module')
  /\ (forall other, other ∈ All.nodes module -> other ∈ All.nodes module')
  /\ (forall other, other ∈ All.edges module' <-> other ∈ All.edges module).
Proof.
  intros Hnone H.
  unfold make_node_class, mbind, M_bind, bind, get in H. rewrite Hnone in H.
  unfold module_set, modify in H. simpl in H. injection H as <- _.
  assert (Hl : (<[name := NodeClass properties]> module) !! name = Some (NodeClass properties))
    by apply (lookup_insert_eq module name).
  assert (Ho : forall other, other <> name ->
                 (<[name := NodeClass properties]> module) !! other = module !! other).
  { intros other Hne. apply lookup_insert_ne. congruence. }
  split; [|split; [|split; [|split]]].
  - apply elem_of_All_nodes. eauto.
  - unfold All.edges. rewrite list_elem_of_fmap. intros ([n cls] & Hn & Hin).
    simpl in Hn. subst n. apply elem_of_All_elements in Hin as [Hin Hc].
    rewrite Hl in Hin. injection Hin as <-. discriminate.
  - intros p Hp. apply elem_of_All_node_fields. eauto.
  - intros other Hin. apply elem_of_All_nodes in Hin as [ps Hps].
    apply elem_of_All_nodes. destruct (decide (other = name)) as [->|Hne]; [eauto|].
    rewrite Ho by exact Hne. eauto.
  - intros other. unfold All.edges. rewrite !list_elem_of_fmap. split.
    + intros ([n cls] & Hn & Hin). simpl in Hn. subst n.
      apply elem_of_All_elements in Hin as [Hin Hc].
      destruct (decide (other = name)) as [->|Hne].
      * rewrite Hl in Hin. injection Hin as <-. discriminate.
      * rewrite Ho in Hin by exact Hne. exists (other, cls). split; [reflexivity|].
        apply elem_of_All_elements. auto.
    + intros ([n cls] & Hn & Hin). simpl in Hn. subst n.
      apply elem_of_All_elements in Hin as [Hin Hc].
      assert (other <> name) by congruence.
      exists (other, cls). split; [reflexivity|]. apply elem_of_All_elements.
      rewrite Ho by assumption. auto.
Qed.

Lemma merged_lookup (items : list (gmap string string)) (m : gmap string string) (k : string) :
  merged items m !! k
  = match item_value items k with Some v => Some v | None => m !! k end.
Proof.
  unfold merged, item_value. induction items as [|item items IH] using rev_ind; [reflexivity|].
  rewrite !fold_left_app. simpl. destruct (item !! k) as [v|] eqn:Hk.
  - apply lookup_union_Some_l, Hk.
  - rewrite lookup_union_r by exact Hk. exact IH.
Qed.

Lemma merge_items_loop (t : string) (items : list (gmap string string))
      (metadata : gmap string (gmap string string)) :
  for_each items (fun item (_ : unit) =>
    modify (fun metadata : gmap string (gmap string string) =>
              <[t := item ∪ default ∅ (metadata !! t)]> metadata)) tt metadata
  = (Return tt,
     match items with
     | [] => metadata
     | _ => <[t := merged items (default ∅ (metadata !! t))]> metadata
     end, []).
Proof.
  revert metadata. induction items as [|item items IH]; intros metadata; [reflexivity|].
  simpl. unfold mbind, M_bind, bind, modify. simpl. rewrite IH. simpl.
  f_equal. f_equal. destruct items as [|item' items]; [reflexivity|].
  rewrite (lookup_insert_eq metadata t). simpl.
  apply (insert_insert_eq metadata t). 
Qed.

Lemma rename_column_key_eq (t key : string) (columns : option (list string))
      (m : gmap string string) (metadata : gmap string (gmap string string)) :
  YamlParser.rename_column_key t columns key tt (<[t := m]> metadata)
  = match m !! key with
    | None => (Return tt, <[t := m]> metadata, [])
    | Some key_name =>
        match m !! key_name with
        | Some _ => (Raise KeyError, <[t := m]> metadata, [ErrorLog KeyError])
        | None =>
            (Return tt,
             <[t := match columns with
                    | Some (c :: cs) => <[key_name := YamlParser.join_columns (c :: cs)]>
                                          (delete key m)
                    | _ => delete key m
                    end]> metadata, [])
        end
    end.
Proof.
  unfold YamlParser.rename_column_key, mbind, M_bind, bind, get.
  rewrite (lookup_insert_eq metadata t). simpl.
  destruct (m !! key) as [key_name|] eqn:Hkey; [|reflexivity].
  destruct (m !! key_name) eqn:Hname; [reflexivity|].
  destruct columns as [[|c cs]|]; unfold modify; simpl;
    rewrite (insert_insert_eq metadata t); reflexivity.
Qed.

(** What [_extract_metadata] does for the one-element key list of the parser. *)
Lemma extract_metadata_eq (key t : string) (item : gmap string string)
      (items : list (gmap string string)) (columns : option (list string))
      (metadata : gmap string (gmap string string)) :
  t <> "" ->
  YamlParser._extract_metadata [key] (Some (item :: items)) (Some t) columns metadata
  = let m := merged (item :: items) (default ∅ (metadata !! t)) in
    match m !! key with
    | None => (Return (Some (<[t := m]> metadata)), <[t := m]> metadata, [])
    | Some key_name =>
        match m !! key_name with
        | Some _ => (Raise KeyError, <[t := m]> metadata, [ErrorLog KeyError])
        | None =>
            let m' := match columns with
                      | Some (c :: cs) => <[key_name := YamlParser.join_columns (c :: cs)]>
                                            (delete key m)
                      | _ => delete key m
                      end in
            (Return (Some (<[t := m']> metadata)), <[t := m']> metadata, [])
        end
    end.
Proof.
  intros Ht. unfold YamlParser._extract_metadata.
  assert (String.eqb t "" = false) as -> by (apply String.eqb_neq, Ht).
  set (md0 := match metadata !! t with Some _ => metadata | None => <[t := ∅]> metadata end).
  assert (H0 : default ∅ (md0 !! t) = default ∅ (metadata !! t)).
  { unfold md0. destruct (metadata !! t) eqn:E; [rewrite E; reflexivity|].
    rewrite (lookup_insert_eq metadata t). reflexivity. }
  assert (H1 : forall x, <[t := x]> md0 = <[t := x]> metadata).
  { intros x. unfold md0. destruct (metadata !! t); [reflexivity|].
    apply (insert_insert_eq metadata t). }
  unfold mbind, M_bind.
  rewrite (bind_Return _ _ _ tt md0 [] eq_refl).
  rewrite (bind_Return _ _ _ _ _ _ (merge_items_loop t (item :: items) md0)).
  rewrite H0, H1. cbv zeta.
  set (m := merged (item :: items) (default ∅ (metadata !! t))).
  simpl for_each. unfold mbind, M_bind.
  pose proof (rename_column_key_eq t key columns m metadata) as Hr.
  unfold after, bind. rewrite Hr.
  destruct (m !! key) as [key_name|] eqn:Hkey; [|reflexivity].
  destruct (m !! key_name) eqn:Hname; reflexivity.
Qed.


Lemma first_of_None {V} (keys : list string) (d : gmap string V) :
  YamlParser.first_of keys d = None <-> forall k, k ∈ keys -> d !! k = None.
Proof.
  induction keys as [|k keys IH]; simpl.
  - split; [intros _ k H; inversion H | reflexivity].
  - destruct (d !! k) as [w|] eqn:Hk.
    + split; [discriminate|]. intros H. rewrite H in Hk by left. discriminate.
    + rewrite IH. split.
      * intros H k' Hin. apply elem_of_cons in Hin as [->|Hin]; auto.
      * intros H k' Hin. apply H. right. exact Hin.
Qed.

Lemma or_config_nonempty {V} (config d : gmap string V) :
  d <> ∅ -> YamlParser.or_config config (Some d) = d.
Proof.
  intros Hd. unfold YamlParser.or_config. destruct (decide (size d = 0)) as [H|H]; [|reflexivity].
  apply map_size_empty_iff in H. contradiction.
Qed.


(** X7.  In a dictionary that is not empty, [YamlParser.get_not] keeps
    the entries whose key is not excluded.  Looking afterwards in its
    result for excluded keys finds nothing, unless the result is empty:
    then [get] looks into the parser's configuration instead. *)
Theorem get_not_leaves_no_key {V} (config d : gmap string V) (keys keys' : list string) :
  d <> ∅ ->
  (forall k, k ∈ keys' -> k ∈ keys) ->
  (forall k, YamlParser.get_not config keys (Some d) !! k
             = if decide (k ∈ keys) then None else d !! k)
  /\ YamlParser.get config keys' (Some (YamlParser.get_not config keys (Some d)))
     = if decide (size (YamlParser.get_not config keys (Some d)) = 0)
       then YamlParser.get config keys' None
       else None.
Proof.
  intros Hd Hsub.
  assert (Hl : forall k, YamlParser.get_not config keys (Some d) !! k
                         = if decide (k ∈ keys) then None else d !! k).
  { intros k. unfold YamlParser.get_not. rewrite (or_config_nonempty config d Hd).
    destruct (decide (k ∈ keys)) as [Hin|Hin].
    - apply map_lookup_filter_None. right. intros x _ Hx. apply Hx. exact Hin.
    - destruct (d !! k) as [v|] eqn:Hk.
      + apply map_lookup_filter_Some. auto.
      + apply map_lookup_filter_None. left. exact Hk. }
  split; [exact Hl|].
  unfold YamlParser.get at 1. unfold YamlParser.or_config.
  destruct (decide (size (YamlParser.get_not config keys (Some d)) = 0)); [reflexivity|].
  apply first_of_None. intros k Hin. rewrite Hl.
  rewrite decide_True by (apply Hsub, Hin). reflexivity.
Qed.

(** X8.  When [_extract_metadata] returns a dictionary, it is the
    dictionary it updated, nothing was logged, the other types are
    untouched, and the metadata of the type are the merged items without
    the directive key: the name that the directive gave holds the joined
    column names when there are columns and is absent otherwise, and every
    other entry is the merged one. *)
Theorem extract_metadata_consumes_directive (key t : string)
        (metadata_list : option (list (gmap string string))) (columns : option (list string))
        (metadata result after_call : gmap string (gmap string string))
        (lg : list log_record) :
  YamlParser._extract_metadata [key] metadata_list (Some t) columns metadata
  = (Return (Some result), after_call, lg) ->
  exists items of_type,
    metadata_list = Some items
    /\ after_call = result /\ lg = []
    /\ (forall other, other <> t -> result !! other = metadata !! other)
    /\ result !! t = Some of_type
    /\ of_type !! key = None
    /\ (forall key_name,
          merged items (default ∅ (metadata !! t)) !! key = Some key_name ->
          of_type !! key_name
          = match columns with
            | Some (c :: cs) => Some (YamlParser.join_columns (c :: cs))
            | _ => None
            end)
    /\ (forall k, k <> key ->
                  merged items (default ∅ (metadata !! t)) !! key <> Some k ->
                  of_type !! k = merged items (default ∅ (metadata !! t)) !! k).
Proof.
  intros H. destruct metadata_list as [[|item items]|]; try discriminate.
  destruct (String.eqb t "") eqn:Ht.
  { unfold YamlParser._extract_metadata in H. rewrite Ht in H. discriminate. }
  apply String.eqb_neq in Ht. rewrite extract_metadata_eq in H by exact Ht. cbv zeta in H.
  set (m := merged (item :: items) (default ∅ (metadata !! t))) in *.
  exists (item :: items).
  assert (Hframe : forall x other, other <> t -> <[t := x]> metadata !! other = metadata !! other).
  { intros x other Hne. apply lookup_insert_ne. congruence. }
  destruct (m !! key) as [key_name|] eqn:Hkey.
  - destruct (m !! key_name) eqn:Hname; [discriminate|].
    injection H as <- <- <-. eexists. split; [reflexivity|].
    split; [reflexivity|]. split; [reflexivity|]. split; [apply Hframe|].
    split; [apply (lookup_insert_eq metadata t)|].
    assert (Hkn : key_name <> key) by congruence.
    destruct columns as [[|c cs]|].
    + split; [apply lookup_delete_eq|]. split.
      * intros k Hk. assert (k = key_name) as -> by (unfold m in Hkey; congruence).
        rewrite lookup_delete_ne by congruence. exact Hname.
      * intros k Hk _. apply lookup_delete_ne. congruence.
    + split; [rewrite lookup_insert_ne by exact Hkn; apply lookup_delete_eq|]. split.
      * intros k Hk. assert (k = key_name) as -> by (unfold m in Hkey; congruence).
        apply lookup_insert_eq.
      * intros k Hk Hk2. rewrite lookup_insert_ne by (unfold m in Hkey; congruence).
        apply lookup_delete_ne. congruence.
    + split; [apply lookup_delete_eq|]. split.
      * intros k Hk. assert (k = key_name) as -> by (unfold m in Hkey; congruence).
        rewrite lookup_delete_ne by congruence. exact Hname.
      * intros k Hk _. apply lookup_delete_ne. congruence.
  - injection H as <- <- <-. exists m. split; [reflexivity|].
    split; [reflexivity|]. split; [reflexivity|]. split; [apply Hframe|].
    split; [apply (lookup_insert_eq metadata t)|].
    split; [exact Hkey|]. split; [|reflexivity].
    intros k Hk. unfold m in Hkey. congruence.
Qed.

(** X9.  When the directive key names a key, [_extract_metadata] raises
    [KeyError], after logging an error and with the items already merged
    into the dictionary, exactly when the merged metadata of the type hold
    that name; in particular when the directive names itself. *)
Theorem extract_metadata_key_collision (key t key_name : string)
        (item : gmap string string) (items : list (gmap string string))
        (columns : option (list string)) (metadata : gmap string (gmap string string)) :
  t <> "" ->
  merged (item :: items) (default ∅ (metadata !! t)) !! key = Some key_name ->
  (is_Some (merged (item :: items) (default ∅ (metadata !! t)) !! key_name)
   <-> YamlParser._extract_metadata [key] (Some (item :: items)) (Some t) columns metadata
       = (Raise KeyError,
          <[t := merged (item :: items) (default ∅ (metadata !! t))]> metadata,
          [ErrorLog KeyError]))
  /\ (key_name = key ->
      YamlParser._extract_metadata [key] (Some (item :: items)) (Some t) columns metadata
      = (Raise KeyError,
         <[t := merged (item :: items) (default ∅ (metadata !! t))]> metadata,
         [ErrorLog KeyError])).
Proof.
  intros Ht Hkey. rewrite extract_metadata_eq by exact Ht. cbv zeta. rewrite Hkey. split.
  - destruct (merged (item :: items) (default ∅ (metadata !! t)) !! key_name) eqn:Hname.
    + split; [reflexivity | eauto].
    + split; [intros [? [=]] | discriminate].
  - intros ->. rewrite Hkey. reflexivity.
Qed.

(** X10.  [_extract_metadata] cannot be repeated: after a call for a new
    type, with columns and a directive taken from the items, a second call
    with the same items on the dictionary that the first call returned
    raises [KeyError], whatever its columns. *)
Theorem extract_metadata_twice (key t key_name c : string) (cs : list string)
        (item : gmap string string) (items : list (gmap string string))
        (columns' : option (list string))
        (metadata result after_call : gmap string (gmap string string))
        (lg : list log_record) :
  metadata !! t = None ->
  merged (item :: items) ∅ !! key = Some key_name ->
  YamlParser._extract_metadata [key] (Some (item :: items)) (Some t) (Some (c :: cs)) metadata
  = (Return (Some result), after_call, lg) ->
  exists left_behind,
    YamlParser._extract_metadata [key] (Some (item :: items)) (Some t) columns' result
    = (Raise KeyError, left_behind, [ErrorLog KeyError]).
Proof.
  intros Hfresh Hkey H.
  destruct (String.eqb t "") eqn:Ht.
  { unfold YamlParser._extract_metadata in H. rewrite Ht in H. discriminate. }
  apply String.eqb_neq in Ht. rewrite extract_metadata_eq in H by exact Ht. cbv zeta in H.
  rewrite Hfresh in H. simpl default in H. rewrite Hkey in H.
  destruct (merged (item :: items) ∅ !! key_name) eqn:Hname; [discriminate|].
  set (m1 := <[key_name := YamlParser.join_columns (c :: cs)]>
               (delete key (merged (item :: items) ∅))).
  assert (Hres : result = <[t := m1]> metadata) by (injection H as <- _ _; reflexivity).
  clear H. subst result.
  assert (Hm1 : default ∅ (<[t := m1]> metadata !! t) = m1).
  { rewrite (lookup_insert_eq metadata t). reflexivity. }
  rewrite merged_lookup in Hkey, Hname. rewrite lookup_empty in Hkey, Hname.
  assert (H2 : merged (item :: items) m1 !! key = Some key_name).
  { rewrite merged_lookup. destruct (item_value (item :: items) key); [exact Hkey | discriminate]. }
  assert (H3 : is_Some (merged (item :: items) m1 !! key_name)).
  { rewrite merged_lookup. destruct (item_value (item :: items) key_name); [discriminate|].
    unfold m1. rewrite lookup_insert_eq. eauto. }
  rewrite extract_metadata_eq by exact Ht. cbv zeta. rewrite Hm1, H2.
  destruct H3 as [v ->]. eauto.
Qed.

Section Effects.
Variable re_sub : string -> string -> string -> outcome string.
Variable format_map : string -> gmap string pyval -> outcome string.
Variable Q : forall A, M env A -> Prop.
Variable self : Transformer.
Hypothesis Q_ret : forall A (a : A), Q A (ret a).
Hypothesis Q_raise : forall A e, Q A (raise e).
Hypothesis Q_bind : forall A B (m : M env A) (f : A -> M env B),
    Q A m -> (forall a, Q B (f a)) -> Q B (bind m f).
Hypothesis Q_get : Q env get.
Hypothesis Q_lift : forall A (o : outcome A), Q A (lift o).
Hypothesis Q_row_get : forall key, Q pyval (row_get key).
Hypothesis Q_row_has : forall key, Q bool (row_has key).
Hypothesis Q_warn : forall w, Q unit (warn w).
Hypothesis Q_error : forall e, Q exn (error (raise_errors (params self)) e)
                               /\ Q exn (error None e).
Hypothesis Q_row_set : forall key v, key ∈ written_columns self -> Q unit (row_set key v).

Lemma Q_attr A (o : option A) : Q A (attr o).
Proof. destruct o; [apply Q_ret | apply Q_raise]. Qed.

Lemma Q_t_error (t : Transformer) e :
  raise_errors (params t) = raise_errors (params self) \/ raise_errors (params t) = None ->
  Q unit (t_error t e).
Proof.
  intros Ht. unfold t_error, mbind, M_bind. apply Q_bind; [|intros; apply Q_ret].
  destruct Ht as [-> | ->]; apply Q_error.
Qed.

Lemma Q_create (t : Transformer) item :
  raise_errors (params t) = raise_errors (params self) \/ raise_errors (params t) = None ->
  Q pyval (create t item).
Proof.
  intros Ht. unfold create. destruct (output_validator t) as [v|]; [|apply Q_raise].
  destruct (v (py_str item)); [apply Q_ret | apply Q_ret |].
  unfold mbind, M_bind. apply Q_bind; [|intros; apply Q_ret].
  destruct Ht as [-> | ->]; apply Q_error.
Qed.

Lemma Q_for_each A (xs : list A) (body : A -> unit -> M env unit) u :
  (forall x, x ∈ xs -> Q unit (body x tt)) -> Q unit (for_each xs body u).
Proof.
  destruct u. induction xs as [|x xs IH]; intros H; simpl; [apply Q_ret|].
  unfold mbind, M_bind. apply Q_bind; [apply H; left|].
  intros []. apply IH. intros y Hy. apply H. right. exact Hy.
Qed.

Lemma effects_yield_created (t : Transformer) (item : M env pyval) (k : gen) :
  raise_errors (params t) = raise_errors (params self) \/ raise_errors (params t) = None ->
  Q pyval item -> effects_all Q k -> effects_all Q (yield_created t item k).
Proof.
  intros Ht Hi Hk. unfold yield_created. simpl. split.
  - unfold mbind, M_bind. apply Q_bind; [exact Hi | intros; apply Q_create, Ht].
  - intros s res s' lg _. destruct (truthy res); [simpl|]; exact Hk.
Qed.

Lemma effects_GRaise e : effects_all Q (GRaise e).
Proof. simpl. split; [apply Q_raise | auto]. Qed.

Lemma effects_for_columns (t : Transformer) (body : string -> gen -> gen) :
  (forall key k, effects_all Q k -> effects_all Q (body key k)) ->
  effects_all Q (for_columns t body).
Proof.
  intros Hbody. unfold for_columns. destruct (columns t) as [cs|]; [|apply effects_GRaise].
  induction cs as [|key cs IH]; simpl; [exact I | apply Hbody, IH].
Qed.

Lemma effects_map_call (t : Transformer) :
  raise_errors (params t) = raise_errors (params self) \/ raise_errors (params t) = None ->
  effects_all Q (map_call t).
Proof.
  intros Ht. unfold map_call. simpl. split.
  - destruct (no_columns t); [apply Q_t_error, Ht | apply Q_ret].
  - intros _ _ _ _ _. apply effects_for_columns. intros key k Hk.
    apply effects_yield_created; [exact Ht| |exact Hk].
    unfold mbind, M_bind. apply Q_bind; [apply Q_row_has|]. intros present.
    apply Q_bind; [|intros; apply Q_row_get].
    destruct present; [apply Q_ret | apply Q_t_error, Ht].
Qed.

Lemma effects_cat_loop cs acc : effects_all Q (cat_loop self cs acc).
Proof.
  revert acc. induction cs as [|key cs IH]; intros acc; simpl; [exact I|]. split.
  - unfold mbind, M_bind. apply Q_bind; [apply Q_row_get | intros; apply Q_ret].
  - intros _ x _ _ _. apply effects_yield_created; [left; reflexivity | apply Q_ret | apply IH].
Qed.

Lemma call_effects (i : pyval) :
  builtin self -> effects_all Q (call re_sub format_map self i).
Proof.
  unfold builtin, call. destruct (class self) eqn:Hclass; intros Hb.
  - unfold split_call. apply effects_for_columns. intros key k Hk. simpl. split.
    + unfold mbind, M_bind. apply Q_bind; [apply Q_row_get|]. intros cell.
      apply Q_bind; [apply Q_attr|]. intros sep.
      destruct (String.eqb sep ""); [apply Q_raise | apply Q_ret].
    + intros _ items _ _ _. induction items as [|item items IH]; simpl; [exact Hk|].
      apply (effects_yield_created self); [left; reflexivity | apply Q_ret | exact IH].
  - unfold cat_call. destruct (columns self); [apply effects_cat_loop | apply effects_GRaise].
  - unfold cat_format_call. destruct (format_string (params self)) as [fs|];
      [|apply effects_GRaise].
    destruct (String.eqb fs "").
    + simpl. split; [apply Q_t_error; left; reflexivity | auto].
    + apply effects_yield_created; [left; reflexivity | | exact I].
      unfold mbind, M_bind. apply Q_bind; [apply Q_get|]. intros s.
      apply Q_bind; [apply Q_lift | intros; apply Q_ret].
  - apply (effects_yield_created self); [left; reflexivity | apply Q_ret | exact I].
  - apply effects_map_call. left. reflexivity.
  - unfold translate_call. simpl. split.
    { destruct (no_columns self); [apply Q_t_error; left; reflexivity | apply Q_ret]. }
    intros _ _ _ _ _. destruct (columns self) as [cs|] eqn:Hcs; [|apply effects_GRaise].
    simpl. split.
    + apply Q_for_each. intros key Hkey.
      unfold mbind, M_bind. apply Q_bind; [apply Q_row_has|]. intros present.
      apply Q_bind.
      { destruct present; [apply Q_ret | apply Q_t_error; left; reflexivity]. }
      intros _. apply Q_bind; [apply Q_row_get|]. intros cell.
      apply Q_bind; [apply Q_attr|]. intros table.
      destruct (assoc cell table).
      * apply Q_row_set. unfold written_columns. rewrite Hclass, Hcs. exact Hkey.
      * apply Q_bind; [apply Q_attr|]. intros _.
        apply Q_bind; [apply Q_attr|]. intros _. apply Q_warn.
    + intros _ _ _ _ _. apply effects_map_call. right. reflexivity.
  - unfold string_call. simpl. split.
    + destruct (truthy _); [apply Q_ret | apply Q_t_error; left; reflexivity].
    + intros _ _ _ _ _.
      apply (effects_yield_created self); [left; reflexivity | apply Q_ret | exact I].
  - unfold replace_call. apply effects_for_columns. intros key k Hk.
    apply effects_yield_created; [left; reflexivity | | exact Hk].
    unfold mbind, M_bind. apply Q_bind; [apply Q_row_get|]. intros cell.
    destruct cell; try apply Q_raise.
    apply Q_bind; [apply Q_lift | intros; apply Q_ret].
  - contradiction.
Qed.
End Effects.

Lemma confined_refl keys s : confined keys s s.
Proof. unfold confined. auto. Qed.

Lemma confined_trans keys s1 s2 s3 :
  confined keys s1 s2 -> confined keys s2 s3 -> confined keys s1 s3.
Proof.
  intros (A1 & B1 & C1 & D1) (A2 & B2 & C2 & D2). unfold confined.
  rewrite A2, B2, C2. repeat split; auto. intros k Hk. rewrite D2, D1; auto.
Qed.

Lemma confined_nil s s' : confined [] s s' -> s' = s.
Proof.
  intros (A & B & C & D). destruct s, s'. simpl in *. subst. f_equal.
  apply map_eq. intros k. apply D. apply not_elem_of_nil.
Qed.

Lemma drain_confined keys (g : gen) :
  effects_all (confines keys) g ->
  forall s ys e s' lg, drain g s = (ys, e, s', lg) -> confined keys s s'.
Proof.
  induction g as [|v k IH|A m k IH]; simpl.
  - intros _ s ys e s' lg [= _ _ <- _]. apply confined_refl.
  - intros Hk s ys e s' lg. destruct (drain k s) as [[[vs e1] s1] l1] eqn:Hd.
    intros [= _ _ <- _]. eapply IH; eauto.
  - intros [Hm Hk] s ys e s' lg. destruct (m s) as [[[x|e1] s1] l1] eqn:Hms.
    + destruct (drain (k x) s1) as [[[vs e2] s2] l2] eqn:Hd.
      intros [= _ _ <- _]. eapply confined_trans; [eapply Hm; eauto|].
      eapply IH; eauto.
    + intros [= _ _ <- _]. eapply Hm; eauto.
Qed.

Lemma drain_error_is_fatal (g : gen) :
  effects_all error_is_fatal g ->
  forall s ys e s' lg x,
    drain g s = (ys, e, s', lg) -> ErrorLog x ∈ lg -> e = Some AttributeError.
Proof.
  induction g as [|v k IH|A m k IH]; simpl.
  - intros _ s ys e s' lg x [= _ _ _ <-] Hin. inversion Hin.
  - intros Hk s ys e s' lg x. destruct (drain k s) as [[[vs e1] s1] l1] eqn:Hd.
    intros [= _ <- _ <-]. eapply IH; eauto.
  - intros [Hm Hk] s ys e s' lg x. destruct (m s) as [[[a|e1] s1] l1] eqn:Hms.
    + destruct (drain (k a) s1) as [[[vs e2] s2] l2] eqn:Hd.
      intros [= _ <- _ <-] Hin. apply elem_of_app in Hin as [Hin|Hin].
      * specialize (Hm _ _ _ _ _ Hms Hin). discriminate.
      * eapply IH; eauto.
    + intros [= _ <- _ <-] Hin. specialize (Hm _ _ _ _ _ Hms Hin).
      injection Hm as ->. reflexivity.
Qed.

Section Transformer_effects.
Variable re_sub : string -> string -> string -> outcome string.
Variable format_map : string -> gmap string pyval -> outcome string.

Lemma confines_bind keys A B (m : M env A) (f : A -> M env B) :
  confines keys A m -> (forall a, confines keys B (f a)) -> confines keys B (bind m f).
Proof.
  intros Hm Hf s o s' lg. unfold bind. destruct (m s) as [[[a|e] s1] l1] eqn:Hms.
  - destruct (f a s1) as [[o2 s2] l2] eqn:Hfs. intros [= _ <- _].
    eapply confined_trans; [eapply Hm | eapply Hf]; eauto.
  - intros [= _ <- _]. eapply Hm; eauto.
Qed.

(** X11.  A transformer of [ontoweaver.transformer], run to its end or to
    its exception, leaves the adapter's nodes, edges and errors as they
    were and changes no cell of the row, except that [translate] may
    change the cells of its own columns. *)
Theorem builtin_transformers_keep_state (self : Transformer) (i : pyval)
        (s s' : env) (ys : list pyval) (e : option exn) (lg : list log_record) :
  builtin self ->
  drain (call re_sub format_map self i) s = (ys, e, s', lg) ->
  confined (written_columns self) s s'
  /\ (class self <> kind.translate -> s' = s).
Proof.
  intros Hb Hd.
  assert (H : confined (written_columns self) s s').
  { eapply drain_confined; [|exact Hd].
    apply call_effects; try exact Hb.
    - intros A a s0 o s1 l [= _ <- _]. apply confined_refl.
    - intros A x s0 o s1 l [= _ <- _]. apply confined_refl.
    - apply confines_bind.
    - intros s0 o s1 l [= _ <- _]. apply confined_refl.
    - intros A o s0 o' s1 l [= _ <- _]. apply confined_refl.
    - intros key s0 o s1 l. unfold row_get. destruct (row s0 !! key);
        intros [= _ <- _]; apply confined_refl.
    - intros key s0 o s1 l [= _ <- _]. apply confined_refl.
    - intros w s0 o s1 l [= _ <- _]. apply confined_refl.
    - intros x. split; intros s0 o s1 l.
      + destruct (raise_errors (params self)) as [[|]|]; intros [= _ <- _]; apply confined_refl.
      + intros [= _ <- _]. apply confined_refl.
    - intros key v Hkey s0 o s1 l [= _ <- _]. unfold confined. simpl.
      repeat split; auto. intros k Hk. apply lookup_insert_ne. intros ->. contradiction. }
  split; [exact H|]. intros Hc. apply confined_nil.
  unfold written_columns in H. destruct (class self); try exact H. congruence.
Qed.

Lemma error_is_fatal_bind A B (m : M env A) (f : A -> M env B) :
  error_is_fatal A m -> (forall a, error_is_fatal B (f a)) -> error_is_fatal B (bind m f).
Proof.
  intros Hm Hf s o s' lg x. unfold bind. destruct (m s) as [[[a|e] s1] l1] eqn:Hms.
  - destruct (f a s1) as [[o2 s2] l2] eqn:Hfs. intros [= <- _ <-] Hin.
    apply elem_of_app in Hin as [Hin|Hin].
    + specialize (Hm _ _ _ _ _ Hms Hin). discriminate.
    + eapply Hf; eauto.
  - intros [= <- _ <-] Hin. specialize (Hm _ _ _ _ _ Hms Hin).
    injection Hm as ->. reflexivity.
Qed.

(** X12.  A transformer of [ontoweaver.transformer] built without the
    keyword [raise_errors] has no such attribute: whenever it reports an
    error, the call ends with [AttributeError] and not with the exception
    that was reported. *)
Theorem transformer_error_is_AttributeError (self : Transformer) (i : pyval)
        (s s' : env) (ys : list pyval) (e : option exn) (lg : list log_record) (x : exn) :
  builtin self ->
  raise_errors (params self) = None ->
  drain (call re_sub format_map self i) s = (ys, e, s', lg) ->
  ErrorLog x ∈ lg ->
  e = Some AttributeError.
Proof.
  intros Hb Hr Hd. eapply drain_error_is_fatal; [|exact Hd].
  assert (Hnil : forall y : exn, ErrorLog y ∈ @nil log_record -> False)
    by (intros y H; inversion H).
  apply call_effects; try exact Hb.
  - intros A a s0 o s1 l y [= _ _ <-] Hin. destruct (Hnil _ Hin).
  - intros A a s0 o s1 l y [= _ _ <-] Hin. destruct (Hnil _ Hin).
  - apply error_is_fatal_bind.
  - intros s0 o s1 l y [= _ _ <-] Hin. destruct (Hnil _ Hin).
  - intros A o s0 o' s1 l y [= _ _ <-] Hin. destruct (Hnil _ Hin).
  - intros key s0 o s1 l y. unfold row_get. destruct (row s0 !! key);
      intros [= _ _ <-] Hin; destruct (Hnil _ Hin).
  - intros key s0 o s1 l y [= _ _ <-] Hin. destruct (Hnil _ Hin).
  - intros w s0 o s1 l y [= _ _ <-] Hin. apply list_elem_of_singleton in Hin. discriminate.
  - intros y. rewrite Hr. split; intros s0 o s1 l z [= <- _ _] _; reflexivity.
  - intros key v _ s0 o s1 l y [= _ _ <-] Hin. destruct (Hnil _ Hin).
Qed.
End Transformer_effects.

Lemma drain_GEff_Return {A} (m : M env A) (k : A -> gen) (s s1 : env) (a : A) l1 :
  m s = (Return a, s1, l1) ->
  drain (GEff m k) s
  = (let '(vs, e, s2, l2) := drain (k a) s1 in (vs, e, s2, l1 ++ l2)).
Proof. intros H. simpl. rewrite H. reflexivity. Qed.

Lemma drain_GEff_ret {A} (m : M env A) (k : A -> gen) (s : env) (a : A) :
  m s = (Return a, s, []) -> drain (GEff m k) s = drain (k a) s.
Proof.
  intros H. rewrite (drain_GEff_Return m k s s a [] H).
  destruct (drain (k a) s) as [[[vs e] s2] l2]. reflexivity.
Qed.

Lemma drain_yield_created (self : Transformer) (validator : string -> verdict)
      (item : M env pyval) (x : pyval) (k : gen) (s : env) :
  output_validator self = Some validator ->
  validator (py_str x) <> SchemaErrors ->
  item s = (Return x, s, []) ->
  drain (yield_created self item k) s
  = (let '(ys, e, s', lg) := drain k s in (yielded validator [x] ++ ys, e, s', lg)).
Proof.
  intros Hv Hx Hi. unfold yield_created. simpl. unfold mbind, M_bind, bind. rewrite Hi.
  unfold create. rewrite Hv. unfold yielded, kept. simpl.
  destruct (validator (py_str x)) eqn:E; try congruence; simpl.
  - destruct (String.eqb (py_str x) ""); simpl; destruct (drain k s) as [[[ys e] s'] lg];
      reflexivity.
  - destruct (drain k s) as [[[ys e] s'] lg]; reflexivity.
Qed.

Lemma yielded_app validator xs ys :
  yielded validator (xs ++ ys) = yielded validator xs ++ yielded validator ys.
Proof. unfold yielded. rewrite fmap_app, List.filter_app, fmap_app. reflexivity. Qed.

(** The loop of [map.__call__] over columns that the row has. *)
Lemma drain_map_columns (self : Transformer) (validator : string -> verdict)
      (cs : list string) (cells : list pyval) (k : gen) (s : env) :
  output_validator self = Some validator ->
  (forall x, validator x <> SchemaErrors) ->
  Forall2 (fun key cell => row s !! key = Some cell) cs cells ->
  drain (fold_right (fun key k =>
           yield_created self
             (present ← row_has key;
              (if present : bool then ret tt else t_error self TransformerDataError);;
              row_get key) k) k cs) s
  = (let '(ys, e, s', lg) := drain k s in (yielded validator cells ++ ys, e, s', lg)).
Proof.
  intros Hv Hok Hrow. induction Hrow as [|key cell cs cells Hkey Hrow IH].
  - simpl. destruct (drain k s) as [[[ys e] s'] lg]. reflexivity.
  - simpl fold_right. rewrite (drain_yield_created self validator _ cell); auto.
    + rewrite IH. destruct (drain k s) as [[[ys e] s'] lg].
      change (cell :: cells) with ([cell] ++ cells). rewrite yielded_app, <- app_assoc.
      reflexivity.
    + unfold mbind, M_bind, bind, row_has, row_get. simpl. rewrite Hkey.
      rewrite bool_decide_eq_true_2 by eauto. simpl. rewrite Hkey. reflexivity.
Qed.

Section Map_facts.
Variable re_sub : string -> string -> string -> outcome string.
Variable format_map : string -> gmap string pyval -> outcome string.

(** X13.  [map] on columns that the row has, with an output validator that
    raises nothing, yields the strings of the cells in the order of the
    columns, without the empty and the rejected ones; it logs nothing and
    leaves the state as it was. *)
Theorem map_yields_cells (self : Transformer) (validator : string -> verdict)
        (cs : list string) (cells : list pyval) (s : env) (i : pyval) :
  class self = kind.map ->
  columns self = Some cs ->
  cs <> [] ->
  output_validator self = Some validator ->
  (forall x, validator x <> SchemaErrors) ->
  Forall2 (fun key cell => row s !! key = Some cell) cs cells ->
  drain (call re_sub format_map self i) s = (yielded validator cells, None, s, []).
Proof.
  intros Hk Hc Hne Hv Hok Hrow. unfold call. rewrite Hk. unfold map_call, no_columns, for_columns.
  rewrite Hc. destruct cs as [|c cs]; [congruence|].
  rewrite (drain_GEff_ret _ _ s tt) by reflexivity.
  rewrite (drain_map_columns self validator (c :: cs) cells GDone s); auto.
  simpl. rewrite app_nil_r. reflexivity.
Qed.

(** X14.  [map] stops at the first column that the row does not have: it
    has yielded the values of the columns before it, it logs a
    transformer-data error, and it ends with that error under the raising
    policy, with the [KeyError] of the row access under the collecting
    policy, and with [AttributeError] when the transformer has no
    [raise_errors]. *)
Theorem map_missing_column_ends (self : Transformer) (validator : string -> verdict)
        (pre post : list string) (key : string) (cells : list pyval) (s : env) (i : pyval) :
  class self = kind.map ->
  columns self = Some (pre ++ key :: post) ->
  output_validator self = Some validator ->
  (forall x, validator x <> SchemaErrors) ->
  Forall2 (fun key cell => row s !! key = Some cell) pre cells ->
  row s !! key = None ->
  drain (call re_sub format_map self i) s
  = (yielded validator cells, Some (missing_column_exn (raise_errors (params self))), s,
     [ErrorLog TransformerDataError]).
Proof.
  intros Hk Hc Hv Hok Hrow Hkey. unfold call. rewrite Hk.
  unfold map_call, no_columns, for_columns. rewrite Hc.
  assert (no_columns_false : match pre ++ key :: post with [] => true | _ :: _ => false end
                             = false) by (destruct pre; reflexivity).
  rewrite no_columns_false. rewrite (drain_GEff_ret _ _ s tt) by reflexivity.
  rewrite fold_right_app. rewrite (drain_map_columns self validator pre cells _ s); auto.
  simpl fold_right. unfold yield_created at 1. simpl drain.
  unfold mbind, M_bind, bind, row_has, row_get, t_error, error, mbind, M_bind, bind, emit.
  rewrite Hkey. simpl.
  destruct (raise_errors (params self)) as [[|]|]; simpl; rewrite ?Hkey; simpl;
    rewrite ?app_nil_r; reflexivity.
Qed.
End Map_facts.



Section Translate_facts.
Variable re_sub : string -> string -> string -> outcome string.
Variable format_map : string -> gmap string pyval -> outcome string.

End Translate_facts.


Section Translate_unmapped.
Variable re_sub : string -> string -> string -> outcome string.
Variable format_map : string -> gmap string pyval -> outcome string.

End Translate_unmapped.

(** The inner loop of [split.__call__] over the pieces of one cell. *)
Lemma drain_yield_items (self : Transformer) (validator : string -> verdict)
      (items : list string) (k : gen) (s : env) :
  output_validator self = Some validator ->
  (forall x, validator x <> SchemaErrors) ->
  drain (fold_right (fun item k' => yield_created self (ret (PStr item)) k') k items) s
  = (let '(ys, e, s', lg) := drain k s in (yielded validator (PStr <$> items) ++ ys, e, s', lg)).
Proof.
  intros Hv Hok. induction items as [|item items IH].
  - simpl. destruct (drain k s) as [[[ys e] s'] lg]. reflexivity.
  - simpl fold_right. rewrite (drain_yield_created self validator _ (PStr item)); auto.
    rewrite IH. destruct (drain k s) as [[[ys e] s'] lg].
    change (PStr <$> item :: items) with ([PStr item] ++ (PStr <$> items)).
    rewrite yielded_app, <- app_assoc. reflexivity.
Qed.

Section Split_facts.
Variable re_sub : string -> string -> string -> outcome string.
Variable format_map : string -> gmap string pyval -> outcome string.

(** X17.  [split] with a separator that is not empty, on columns that the
    row has, yields the pieces of the cells in order, without the empty and
    the rejected ones. *)
Theorem split_yields_pieces (self : Transformer) (validator : string -> verdict)
        (sep : string) (cs : list string) (cells : list pyval) (s : env) (i : pyval) :
  class self = kind.split ->
  columns self = Some cs ->
  separator (params self) = Some sep ->
  sep <> "" ->
  output_validator self = Some validator ->
  (forall x, validator x <> SchemaErrors) ->
  Forall2 (fun key cell => row s !! key = Some cell) cs cells ->
  drain (call re_sub format_map self i) s
  = (yielded validator (PStr <$> concat ((fun cell => py_split (py_str cell) sep) <$> cells)),
     None, s, []).
Proof.
  intros Hk Hc Hsep Hne Hv Hok Hrow. unfold call. rewrite Hk. unfold split_call, for_columns.
  rewrite Hc. clear Hc. induction Hrow as [|key cell cs cells Hkey Hrow IH].
  - reflexivity.
  - simpl fold_right.
    rewrite (drain_GEff_ret _ _ s (py_split (py_str cell) sep)).
    + rewrite (drain_yield_items self validator); auto. rewrite IH.
      simpl. rewrite fmap_app, yielded_app. reflexivity.
    + unfold mbind, M_bind, bind, row_get. rewrite Hkey, Hsep. simpl.
      destruct (String.eqb_spec sep ""); [contradiction | reflexivity].
Qed.
End Split_facts.

Section String_facts.
Variable re_sub : string -> string -> string -> outcome string.
Variable format_map : string -> gmap string pyval -> outcome string.

(** X18.  [string] without a value reports a transformer-interface error;
    under the collecting policy it goes on and yields the string ["None"],
    when the output validator accepts it. *)
Theorem string_without_value (self : Transformer) (validator : string -> verdict)
        (s : env) (i : pyval) :
  class self = kind.string ->
  value (params self) = None ->
  output_validator self = Some validator ->
  validator "None" = Accept ->
  drain (call re_sub format_map self i) s
  = match raise_errors (params self) with
    | Some true => ([], Some TransformerInterfaceError, s, [ErrorLog TransformerInterfaceError])
    | Some false => ([PStr "None"], None, s, [ErrorLog TransformerInterfaceError])
    | None => ([], Some AttributeError, s, [ErrorLog TransformerInterfaceError])
    end.
Proof.
  intros Hk Hval Hv Hacc. unfold call. rewrite Hk. unfold string_call. rewrite Hval. simpl.
  unfold t_error, error, mbind, M_bind, bind, emit, create. rewrite Hv. simpl. rewrite Hacc.
  destruct (raise_errors (params self)) as [[|]|]; reflexivity.
Qed.
End String_facts.







Global Instance direct_step_refl src transformer : Reflexive (direct_step src transformer).
Proof.
  intros l. exists [], [], []. rewrite !app_nil_r. simpl. repeat split; auto; lia.
Qed.
Global Instance direct_step_trans src transformer : Transitive (direct_step src transformer).
Proof.
  intros l1 l2 l3 (n1 & e1 & r1 & Hn1 & He1 & Hr1 & Hj1 & Hd1 & Hc1)
                  (n2 & e2 & r2 & Hn2 & He2 & Hr2 & Hj2 & Hd2 & Hc2).
  exists (n1 ++ n2), (e1 ++ e2), (r1 ++ r2).
  rewrite Hn2, Hn1, He2, He1, Hr2, Hr1, Hc2, Hc1, !app_assoc, !length_app.
  repeat split; auto.
  - apply Forall2_app; assumption.
  - apply Forall_app; auto.
  - lia.
Qed.

Global Instance same_errors_refl : Reflexive same_errors.
Proof. intros l. reflexivity. Qed.
Global Instance same_errors_trans : Transitive same_errors.
Proof. intros l1 l2 l3. unfold same_errors. congruence. Qed.

Global Instance counted_refl : Reflexive counted.
Proof. intros l. unfold counted. repeat split; lia. Qed.
Global Instance counted_trans : Transitive counted.
Proof. intros l1 l2 l3. unfold counted. intros (? & ? & ?) (? & ? & ?). repeat split; lia. Qed.

Section Engine_more.
Variable re_sub : string -> string -> string -> outcome string.
Variable format_map : string -> gmap string pyval -> outcome string.
Variable self : PandasAdapter.t.


Lemma process_transformer_counted i src transformer l s l' s' lg :
  process_transformer re_sub format_map self i src transformer l s = (Return l', s', lg) ->
  counted (count_transformation l) l'.
Proof.
  unfold process_transformer. intros H.
  eapply (for_gen_invariant counted); [|exact H].
  clear. intros v b s b' s' lg. unfold process_target. destruct (truthy v).
  - intros H. do 4 inv_bind H.
    assert (Hg : counted (add_node a2 (count_node b)) b').
    { unfold make_edges in H. destruct (from_subject (params transformer)) as [fs|].
      - inv_bind H.
        assert (Hst : counted (add_node a2 (count_node b)) (snd a3)).
        { change (add_node a2 (count_node b)) with (snd (false, add_node a2 (count_node b))).
          eapply (for_each_invariant (on_snd counted)); [|exact Hm3].
          clear. intros t st s st' s' lg _. unfold find_subject. intros H. inv_bind H.
          destruct (String.eqb fs a).
          - inv_bind H. apply ret_inv in H as ->. unfold on_snd. simpl.
            eapply (for_gen_invariant counted); [|exact Hm0].
            clear. intros v b s b' s' lg. unfold redirected_edge. intros H.
            do 4 inv_bind H. apply ret_inv in H as ->.
            unfold counted. simpl. repeat split; lia.
          - apply ret_inv in H as ->. reflexivity. }
        destruct (fst a3).
        + apply ret_inv in H as ->. exact Hst.
        + inv_bind H. apply ret_inv in H as ->.
          etransitivity; [exact Hst|]. unfold counted. simpl. repeat split; lia.
      - do 3 inv_bind H. apply ret_inv in H as ->. unfold counted. simpl. repeat split; lia. }
    etransitivity; [|exact Hg]. unfold counted. simpl. rewrite length_app. simpl.
    repeat split; lia.
  - intros H. inv_bind H. apply ret_inv in H as ->.
    unfold counted. simpl. repeat split; lia.
Qed.

Lemma process_transformers_counted i src ts :
  forall l s l' s' lg,
  for_each ts (process_transformer re_sub format_map self i src) l s = (Return l', s', lg) ->
  local_rows l' = local_rows l
  /\ local_transformations l' = (local_transformations l + length ts)%nat
  /\ (length (local_nodes l') + local_nb_nodes l <= length (local_nodes l) + local_nb_nodes l')%nat.
Proof.
  induction ts as [|t ts IH]; intros l s l' s' lg; simpl.
  - intros H. apply ret_inv in H as ->. repeat split; lia.
  - intros H. inv_bind H. apply process_transformer_counted in Hm as (A1 & B1 & C1).
    apply IH in H as (A2 & B2 & C2). simpl in *. repeat split; lia.
Qed.

Lemma process_row_counted row_data s l s' lg :
  process_row re_sub format_map self row_data s = (Return l, s', lg) ->
  local_rows l = 1%nat
  /\ local_transformations l = length (PandasAdapter.transformers self)
  /\ (length (local_nodes l) <= S (local_nb_nodes l))%nat.
Proof.
  destruct row_data as [i r]. unfold process_row. intros H. do 7 inv_bind H.
  apply process_transformers_counted in H as (A & B & C).
  assert (Ha5 : local_rows a5 = 1%nat /\ local_transformations a5 = 0%nat
                /\ local_nb_nodes a5 = 0%nat /\ (length (local_nodes a5) <= 1)%nat).
  { assert (Ha1 : local_rows a1 = 1%nat /\ local_transformations a1 = 0%nat
                  /\ local_nb_nodes a1 = 0%nat /\ local_nodes a1 = []).
    { destruct (1 <? length a0)%nat.
      - inv_bind Hm1. apply ret_inv in Hm1 as ->. simpl. auto.
      - apply ret_inv in Hm1 as ->. simpl. auto. }
    destruct Ha1 as (R1 & T1 & N1 & L1). destruct (id_truthy a4).
    - do 2 inv_bind Hm5. apply ret_inv in Hm5 as ->. simpl. rewrite L1. simpl. auto.
    - inv_bind Hm5. apply ret_inv in Hm5 as ->. simpl. rewrite L1. simpl. auto. }
  destruct Ha5 as (R5 & T5 & N5 & L5). repeat split; lia.
Qed.
End Engine_more.

Lemma keeps_ret A (a : A) : keeps A (ret a).
Proof. intros s o s' lg [= _ <- _]. auto. Qed.
Lemma keeps_raise A e : keeps A (raise e).
Proof. intros s o s' lg [= _ <- _]. auto. Qed.
Lemma keeps_emit r : keeps unit (emit r).
Proof. intros s o s' lg [= _ <- _]. auto. Qed.
Lemma keeps_bind_Return A B (m : M env A) (f : A -> M env B) :
  keeps A m -> (forall a s s' lg, m s = (Return a, s', lg) -> keeps B (f a)) ->
  keeps B (bind m f).
Proof.
  intros Hm Hf s o s' lg. unfold bind.
  destruct (m s) as [[[a|e] s1] l1] eqn:E1.
  - destruct (f a s1) as [[o2 s2] l2] eqn:E2. intros [= _ <- _].
    destruct (Hm _ _ _ _ E1) as (A1 & B1 & C1), (Hf _ _ _ _ E1 _ _ _ _ E2) as (A2 & B2 & C2).
    repeat split; congruence.
  - intros [= _ <- _]. eapply Hm; eauto.
Qed.
Lemma keeps_bind A B (m : M env A) (f : A -> M env B) :
  keeps A m -> (forall a, keeps B (f a)) -> keeps B (bind m f).
Proof. intros Hm Hf. apply keeps_bind_Return; auto. Qed.
Lemma keeps_attr A (o : option A) : keeps A (attr o).
Proof. destruct o; [apply keeps_ret | apply keeps_raise]. Qed.
Lemma keeps_error r e : keeps exn (error r e).
Proof.
  unfold error, mbind, M_bind. apply keeps_bind; [apply keeps_emit|]. intros _.
  destruct r as [[|]|]; [apply keeps_raise | apply keeps_ret | apply keeps_raise].
Qed.
Lemma keeps_row_set key v : keeps unit (row_set key v).
Proof. intros s o s' lg [= _ <- _]. auto. Qed.

Lemma keeps_for_each A B (xs : list A) (body : A -> B -> M env B) :
  (forall x b, x ∈ xs -> keeps B (body x b)) -> forall b, keeps B (for_each xs body b).
Proof.
  induction xs as [|x xs IH]; intros H b; simpl; [apply keeps_ret|].
  unfold mbind, M_bind. apply keeps_bind; [apply H; left|].
  intros b'. apply IH. intros y b2 Hy. apply H. right. exact Hy.
Qed.

Lemma keeps_for_gen B (g : gen) (body : pyval -> B -> M env B) :
  effects_all keeps g -> (forall v b, keeps B (body v b)) ->
  forall b, keeps B (for_gen g body b).
Proof.
  intros Hg Hbody. induction g as [|v k IH|A m k IH]; intros b; simpl.
  - apply keeps_ret.
  - unfold mbind, M_bind. apply keeps_bind; [apply Hbody|]. intros b'. apply IH. exact Hg.
  - destruct Hg as [Hm Hk]. intros s o s' lg. unfold mbind, M_bind, bind.
    destruct (m s) as [[[x|e] s1] l1] eqn:E1.
    + destruct (for_gen (k x) body b s1) as [[o2 s2] l2] eqn:E2. intros [= _ <- _].
      destruct (Hm _ _ _ _ E1) as (A1 & B1 & C1).
      destruct (IH x (Hk _ _ _ _ E1) b _ _ _ _ E2) as (A2 & B2 & C2).
      repeat split; congruence.
    + intros [= _ <- _]. eapply Hm; eauto.
Qed.

Section Run_facts.
Variable re_sub : string -> string -> string -> outcome string.
Variable format_map : string -> gmap string pyval -> outcome string.
Variable self : PandasAdapter.t.

Lemma keeps_call (t : Transformer) (i : pyval) :
  builtin t -> effects_all keeps (call re_sub format_map t i).
Proof.
  apply call_effects.
  - apply keeps_ret.
  - apply keeps_raise.
  - apply keeps_bind.
  - intros s o s' lg [= _ <- _]. auto.
  - intros A o s o' s' lg [= _ <- _]. auto.
  - intros key s o s' lg. unfold row_get. destruct (row s !! key); intros [= _ <- _]; auto.
  - intros key s o s' lg [= _ <- _]. auto.
  - intros w. apply keeps_emit.
  - intros e. split; apply keeps_error.
  - intros key v _. apply keeps_row_set.
Qed.

Lemma keeps_make_id entry_type entry_name : keeps _ (make_id self entry_type entry_name).
Proof.
  intros s o s' lg. rewrite make_id_eq. cbv zeta.
  destruct (String.eqb _ ""); intros [= _ <- _]; auto.
Qed.

Lemma keeps_properties d i t node :
  match d with Some ps => builtin_properties ps | None => True end ->
  keeps _ (properties re_sub format_map self d i t node).
Proof.
  intros Hd. unfold properties, mbind, M_bind. apply keeps_bind_Return; [apply keeps_attr|].
  intros ps s s' lg Hps. destruct d as [ps'|]; [|discriminate]. apply ret_inv in Hps as ->.
  apply keeps_bind.
  - apply keeps_for_each. intros [prop_transformer property_name] b Hin.
    apply keeps_for_gen; [|intros; apply keeps_ret].
    apply keeps_call. unfold builtin_properties in Hd. rewrite Forall_forall in Hd.
    apply (Hd _ Hin).
  - intros p. destruct (PandasAdapter.metadata self) as [md|]; [|apply keeps_ret].
    destruct (decide (md = ∅)); [apply keeps_ret|].
    apply keeps_bind; [apply keeps_attr|]. intros elem.
    destruct (md !! elem); apply keeps_ret.
Qed.

Lemma keeps_make_node node_t id p : keeps _ (make_node node_t id p).
Proof. unfold make_node. destruct node_t; [apply keeps_ret | apply keeps_raise]. Qed.
Lemma keeps_make_edge edge_t id_target id_source p :
  keeps _ (make_edge edge_t id_target id_source p).
Proof. unfold make_edge. destruct edge_t; [apply keeps_ret | apply keeps_raise]. Qed.

Hypothesis Hbuiltin : all_builtin self.

Lemma builtin_structural t :
  t = PandasAdapter.subject_transformer self \/ t ∈ PandasAdapter.transformers self ->
  builtin t /\ match properties_of t with
               | Some ps => builtin_properties ps
               | None => True
               end.
Proof.
  intros Ht. destruct Hbuiltin as [H _]. rewrite Forall_forall in H. apply H.
  destruct Ht as [-> | Ht]; [left | right; exact Ht].
Qed.

Lemma keeps_process_transformer i src transformer l :
  transformer ∈ PandasAdapter.transformers self ->
  keeps _ (process_transformer re_sub format_map self i src transformer l).
Proof.
  intros Hin. destruct (builtin_structural transformer (or_intror Hin)) as [Hb Hp].
  unfold process_transformer. apply keeps_for_gen; [apply keeps_call, Hb|].
  intros v b. unfold process_target. destruct (truthy v).
  2:{ unfold mbind, M_bind. apply keeps_bind; [apply keeps_error | intros; apply keeps_ret]. }
  unfold mbind, M_bind. apply keeps_bind; [apply keeps_attr|]. intros t_name.
  apply keeps_bind; [apply keeps_make_id|]. intros target_node_id.
  apply keeps_bind; [apply keeps_properties, Hp|]. intros p.
  apply keeps_bind; [apply keeps_make_node|]. intros n.
  unfold make_edges. destruct (from_subject (params transformer)) as [fs|].
  - apply keeps_bind.
    + apply keeps_for_each. intros t st Ht. unfold find_subject, mbind, M_bind.
      apply keeps_bind; [apply keeps_attr|]. intros t_name'.
      destruct (String.eqb fs t_name'); [|apply keeps_ret].
      apply keeps_bind; [|intros; apply keeps_ret].
      apply keeps_for_gen.
      { apply keeps_call. apply (builtin_structural t). right. exact Ht. }
      intros s_id l'. unfold redirected_edge, mbind, M_bind.
      apply keeps_bind; [apply keeps_attr|]. intros t_name''.
      apply keeps_bind; [apply keeps_make_id|]. intros subject_node_id.
      apply keeps_bind; [apply keeps_properties, Hp|]. intros p'.
      apply keeps_bind; [apply keeps_make_edge | intros; apply keeps_ret].
    + intros st. destruct (fst st); [apply keeps_ret|].
      apply keeps_bind; [apply keeps_error | intros; apply keeps_ret].
  - apply keeps_bind_Return.
    { unfold edge_fields, mbind, M_bind. apply keeps_bind; [apply keeps_attr|]. intros e.
      destruct (PandasAdapter.types self !! e) as [[| |]|];
        first [apply keeps_ret | apply keeps_raise]. }
    intros fields s s' lg Hf.
    assert (Hfields : builtin_properties fields).
    { unfold edge_fields, mbind, M_bind in Hf. apply bind_inv_Return in Hf
        as (e & s1 & l1 & l2 & _ & Hf & _).
      destruct (PandasAdapter.types self !! e) as [[| ps src_t tgt_t |]|] eqn:He; try discriminate.
      apply ret_inv in Hf as ->. destruct Hbuiltin as [_ H]. apply (H _ _ He). }
    apply keeps_bind; [apply keeps_properties, Hfields|]. intros p'.
    apply keeps_bind; [apply keeps_make_edge | intros; apply keeps_ret].
Qed.

Lemma keeps_process_row row_data : keeps _ (process_row re_sub format_map self row_data).
Proof.
  destruct row_data as [i r]. unfold process_row, mbind, M_bind.
  destruct (builtin_structural _ (or_introl eq_refl)) as [Hb Hp].
  apply keeps_bind; [intros s o s' lg [= _ <- _]; auto|]. intros _.
  apply keeps_bind.
  { apply keeps_for_gen; [apply keeps_call, Hb | intros; apply keeps_ret]. }
  intros ids. apply keeps_bind.
  { destruct (1 <? length ids)%nat; [|apply keeps_ret].
    apply keeps_bind; [apply keeps_error | intros; apply keeps_ret]. }
  intros l. apply keeps_bind; [destruct ids; [apply keeps_raise | apply keeps_ret]|].
  intros source_id. apply keeps_bind; [apply keeps_attr|]. intros s_name.
  apply keeps_bind; [apply keeps_make_id|]. intros source_node_id.
  apply keeps_bind.
  { destruct (id_truthy source_node_id).
    - apply keeps_bind; [apply keeps_properties, Hp|]. intros p.
      apply keeps_bind; [apply keeps_make_node | intros; apply keeps_ret].
    - apply keeps_bind; [apply keeps_error | intros; apply keeps_ret]. }
  intros l'. apply keeps_for_each. intros t b Ht. apply keeps_process_transformer, Ht.
Qed.

Lemma run_loop (df : list (pyval * gmap string pyval)) :
  forall counts s counts' s' lg,
  for_each df (fun row_data '(nb_t, nb_n, nb_r) =>
      l ← process_row re_sub format_map self row_data;
      nodes_append (local_nodes l);;
      edges_append (local_edges l);;
      modify (fun s => Env (row s) (_nodes s) (_edges s)
                           (errors s ++ local_errors l));;
      ret (nb_t + local_transformations l, nb_n + local_nb_nodes l,
           nb_r + local_rows l)%nat) counts s = (Return counts', s', lg) ->
  snd counts' = (snd counts + length df)%nat
  /\ fst (fst counts')
     = (fst (fst counts) + length df * length (PandasAdapter.transformers self))%nat
  /\ (length (_nodes s') + snd (fst counts)
      <= length (_nodes s) + snd (fst counts') + length df)%nat
  /\ exists es, errors s' = errors s ++ es.
Proof.
  induction df as [|row_data df IH]; intros counts s counts' s' lg; simpl.
  - intros H. injection H as <- <- _. simpl.
    split; [lia | split; [lia | split; [lia | exists []; symmetry; apply app_nil_r]]].
  - intros H. inv_bind H. apply IH in H as (R & T & N & es & E).
    destruct counts as [[nb_t nb_n] nb_r]. inv_bind Hm.
    destruct (keeps_process_row _ _ _ _ _ Hm0) as (K1 & K2 & K3).
    destruct (process_row_counted _ _ _ _ _ _ _ _ Hm0) as (C1 & C2 & C3).
    unfold nodes_append, edges_append, modify, mbind, M_bind, bind, ret in Hm. simpl in Hm.
    injection Hm as <- <- _.
    simpl in *. rewrite length_app, length_map in N. rewrite K1 in N. rewrite K3 in E.
    repeat split; try lia. exists (local_errors a0 ++ es). rewrite E, app_assoc. reflexivity.
Qed.

(** X20.  With transformers of [ontoweaver.transformer], a run that
    returns has counted one row for each row of the table and one
    transformation for each transformer and row; the nodes it leaves are
    those of this run alone, at most one for each row more than the nodes
    counted; the errors recorded before the run are still there, and the
    summary is logged as an error as soon as the list is not empty. *)
Theorem run_counts_and_accumulators (s s' : env) (nb_t nb_n nb_r : nat)
        (lg : list log_record) :
  run re_sub format_map self s = (Return (nb_t, nb_n, nb_r), s', lg) ->
  nb_r = length (PandasAdapter.df self)
  /\ nb_t = (length (PandasAdapter.df self) * length (PandasAdapter.transformers self))%nat
  /\ (length (_nodes s') <= nb_n + nb_r)%nat
  /\ (exists es, errors s' = errors s ++ es)
  /\ (errors s' <> [] ->
      exists lg0, lg = lg0 ++ [RunSummaryLog (length (errors s')) nb_t nb_n nb_r]).
Proof.
  unfold run. intros H. do 3 inv_bind H. destruct a0 as [[nb_t' nb_n'] nb_r'].
  inv_bind H. injection H as -> -> -> <- <-.
  injection Hm as _ <- _. injection Hm1 as <- <- _.
  apply run_loop in Hm0 as (R & T & N & es & E). simpl in *.
  assert (s3 = s1) as ->.
  { destruct (bool_decide (errors s1 = [])); injection Hm2 as _ <- _; reflexivity. }
  split; [lia | split; [lia | split; [lia | split; [exists es; exact E|]]]].
  intros Hne. rewrite bool_decide_eq_false_2 in Hm2 by exact Hne.
  injection Hm2 as _ <-. rewrite ?app_nil_r, ?app_nil_l, !app_assoc. eexists. reflexivity.
Qed.
End Run_facts.

Lemma sanitize_no_quote (x : string) : no_quote (sanitize x).
Proof.
  unfold no_quote, sanitize. induction x as [|c x IH]; simpl.
  - apply not_elem_of_nil.
  - apply not_elem_of_cons. split; [|exact IH].
    destruct (Ascii.eqb_spec c "'"%char) as [->|Hc]; [discriminate | congruence].
Qed.

Global Instance stores_refl names : Reflexive (stores names).
Proof. intros p k v H. left. exact H. Qed.
Global Instance stores_trans names : Transitive (stores names).
Proof.
  intros p1 p2 p3 H12 H23 k v H. destruct (H23 k v H) as [H2|H2]; [apply H12, H2 | right; exact H2].
Qed.

Section Properties_facts.
Variable re_sub : string -> string -> string -> outcome string.
Variable format_map : string -> gmap string pyval -> outcome string.
Variable self : PandasAdapter.t.

(** X21.  The properties of a node or of an edge: the metadata that the
    adapter holds for the type win over the extracted properties, and every
    other entry is named by the dictionary of properties and holds a value
    without single quote. *)
Theorem properties_sanitized_then_metadata (ps : list (Transformer * string)) (i : pyval)
        (t : Transformer) (node : bool) (s s' : env) (p : gmap string string)
        (lg : list log_record) :
  properties re_sub format_map self (Some ps) i t node s = (Return p, s', lg) ->
  (forall k v, metadata_for self t node !! k = Some v -> p !! k = Some v)
  /\ (forall k v, p !! k = Some v -> metadata_for self t node !! k = None ->
                  k ∈ ps.*2 /\ no_quote v).
Proof.
  intros H. unfold properties in H. do 2 inv_bind H. apply ret_inv in Hm as ->.
  assert (Hst : stores (ps.*2) ∅ a0).
  { eapply (for_each_invariant (stores (ps.*2))); [|exact Hm0].
    intros [prop_transformer property_name] b z1 b' z2 lg' Hin.
    apply (for_gen_invariant (stores (ps.*2))).
    intros v q z3 q' z4 lg'' Hq. apply ret_inv in Hq as ->. intros k x.
    destruct (decide (k = property_name)) as [->|Hk].
    - rewrite (lookup_insert_eq q property_name (sanitize (py_str v))). intros [= <-]. right.
      split; [|apply sanitize_no_quote].
      apply list_elem_of_fmap. exists (prop_transformer, property_name). auto.
    - rewrite (lookup_insert_ne q property_name k (sanitize (py_str v))) by congruence. auto. }
  assert (Hext : forall k v, a0 !! k = Some v -> k ∈ ps.*2 /\ no_quote v).
  { intros k v Hk. destruct (Hst k v Hk) as [Hk'|Hk']; [|exact Hk'].
    apply lookup_empty_Some in Hk'. contradiction. }
  unfold metadata_for. destruct (PandasAdapter.metadata self) as [md|]; simpl.
  2:{ apply ret_inv in H as ->.
      split; [intros k v Hk; apply lookup_empty_Some in Hk; contradiction|].
      intros k v Hk _. apply Hext, Hk. }
  destruct (decide (md = ∅)) as [->|Hmd].
  { apply ret_inv in H as ->. split.
    - intros k v. destruct (if node then target t else edge t) as [elem|]; simpl.
      + replace ((∅ : gmap string (gmap string string)) !! elem) with (@None (gmap string string))
          by (symmetry; apply lookup_empty).
        simpl. intros Hk. apply lookup_empty_Some in Hk. contradiction.
      + intros Hk. apply lookup_empty_Some in Hk. contradiction.
    - intros k v Hk _. apply Hext, Hk. }
  inv_bind H. destruct (if node then target t else edge t) as [elem|]; [|discriminate].
  apply ret_inv in Hm as ->. simpl. destruct (md !! elem) as [kv|]; simpl.
  - apply ret_inv in H as ->. split.
    + intros k v Hk. apply lookup_union_Some_l. exact Hk.
    + intros k v Hk Hnone. apply Hext. rewrite lookup_union_r in Hk by exact Hnone. exact Hk.
  - apply ret_inv in H as ->.
    split; [intros k v Hk; apply lookup_empty_Some in Hk; contradiction|].
    intros k v Hk _. apply Hext, Hk.
Qed.
End Properties_facts.

Global Instance redirected_step_refl P : Reflexive (redirected_step P).
Proof.
  intros l. split; [reflexivity|]. split; [reflexivity|]. exists [].
  rewrite app_nil_r. split; [reflexivity | constructor].
Qed.
Global Instance redirected_step_trans P : Transitive (redirected_step P).
Proof.
  intros l1 l2 l3 (N1 & R1 & e1 & E1 & F1) (N2 & R2 & e2 & E2 & F2).
  split; [congruence|]. split; [congruence|]. exists (e1 ++ e2).
  rewrite E2, E1, app_assoc. split; [reflexivity | apply Forall_app; auto].
Qed.


Section Redirected.
Variable re_sub : string -> string -> string -> outcome string.
Variable format_map : string -> gmap string pyval -> outcome string.
Variable self : PandasAdapter.t.

End Redirected.

(** ** More statements at concrete inputs *)

Lemma declaring_keeps_other_types_witness :
  <["Disease" := NodeClass []]> gene_only !! "Gene" = gene_only !! "Gene".
Proof.
  assert (H : make_node_class "Disease" [] gene_only
              = (Return "Disease", <["Disease" := NodeClass []]> gene_only, []))
    by reflexivity.
  assert (Hne : "Gene" <> "Disease") by discriminate.
  exact (proj1 (declaring_keeps_other_types "Disease" "" "" [] gene_only _ _ _ (or_introl H))
               "Gene" Hne).
Defined.

Lemma edge_targets_accumulate_witness :
  exists module' lg,
    (make_edge_class "ASSOCIATED_WITH" "Gene" "Disease" [];;
     declare_edges "ASSOCIATED_WITH" [("Patient", "Phenotype", []); ("Gene", "Disease", [])]) ∅
    = (Return "ASSOCIATED_WITH", module', lg)
    /\ module' !! "ASSOCIATED_WITH"
       = Some (EdgeClass [] "Gene" ["Disease"; "Phenotype"; "Disease"]).
Proof.
  apply (edge_targets_accumulate "ASSOCIATED_WITH" "Gene" "Disease" []
           [("Patient", "Phenotype", []); ("Gene", "Disease", [])] ∅).
  reflexivity.
Defined.

Lemma name_shared_by_node_and_edge_witness :
  exists lg, make_edge_class "Gene" "Gene" "Disease" [] gene_only
             = (Raise AttributeError, gene_only, lg).
Proof.
  apply (proj1 (name_shared_by_node_and_edge "Gene" "Gene" "Disease" [] [] "" [] gene_only)).
  reflexivity.
Defined.

Lemma tuple_round_trip_witness :
  Node.as_tuple (Node_from_tuple "Gene" ("BRCA1:Gene", "Gene", ∅)) = ("BRCA1:Gene", "Gene", ∅)
  /\ Node.as_tuple (Node_from_tuple "Gene" ("BRCA1:Gene", "", ∅)) <> ("BRCA1:Gene", "", ∅).
Proof.
  assert (Hcls : "Gene" <> "") by discriminate.
  split.
  - apply (proj1 (tuple_round_trip "Gene" Hcls) ("BRCA1:Gene", "Gene", ∅)). discriminate.
  - intros H. apply (proj1 (tuple_round_trip "Gene" Hcls) ("BRCA1:Gene", "", ∅)) in H.
    apply H. reflexivity.
Defined.

Lemma declared_node_is_listed_witness :
  "Gene" ∈ All.nodes gene_only /\ ("Gene" ∉ All.edges gene_only).
Proof.
  assert (H : make_node_class "Gene" [] ∅ = (Return "Gene", gene_only, [])) by reflexivity.
  assert (Hfree : (∅ : gmap string class_desc) !! "Gene" = None) by reflexivity.
  destruct (declared_node_is_listed "Gene" [] ∅ gene_only [] Hfree H) as (H1 & H2 & _).
  exact (conj H1 H2).
Defined.


Lemma get_not_leaves_no_key_witness :
  YamlParser.get (∅ : gmap string string) ["columns"]
                 (Some (YamlParser.get_not ∅ ["columns"; "column"] (Some map_section)))
  = None.
Proof.
  assert (Hne : map_section <> ∅) by (apply insert_non_empty).
  assert (Hsub : forall k : string, k ∈ ["columns"] -> k ∈ ["columns"; "column"]).
  { intros k Hk. apply list_elem_of_singleton in Hk. subst k. left. }
  exact (proj2 (get_not_leaves_no_key ∅ map_section ["columns"; "column"] ["columns"] Hne Hsub)).
Defined.

Lemma extract_metadata_consumes_directive_witness :
  exists items of_type,
    Some source_items = Some items
    /\ <["Disease" := <["columns_of_origin" := "disease_id, other_id"]>
                        (<["source" := "OncoKB"]> ∅)]> ∅
       = (<["Disease" := <["columns_of_origin" := "disease_id, other_id"]>
                          (<["source" := "OncoKB"]> ∅)]> ∅
          : gmap string (gmap string string))
    /\ @nil log_record = []
    /\ (forall other, other <> "Disease" ->
          (<["Disease" := <["columns_of_origin" := "disease_id, other_id"]>
                            (<["source" := "OncoKB"]> ∅)]> ∅
           : gmap string (gmap string string)) !! other
          = (∅ : gmap string (gmap string string)) !! other)
    /\ (<["Disease" := <["columns_of_origin" := "disease_id, other_id"]>
                         (<["source" := "OncoKB"]> ∅)]> ∅
        : gmap string (gmap string string)) !! "Disease" = Some of_type
    /\ of_type !! source_directive = None
    /\ (forall key_name,
          merged items (default ∅ ((∅ : gmap string (gmap string string)) !! "Disease"))
          !! source_directive = Some key_name ->
          of_type !! key_name
          = Some (YamlParser.join_columns ["disease_id"; "other_id"]))
    /\ (forall k, k <> source_directive ->
                  merged items (default ∅ ((∅ : gmap string (gmap string string)) !! "Disease"))
                  !! source_directive <> Some k ->
                  of_type !! k
                  = merged items (default ∅ ((∅ : gmap string (gmap string string)) !! "Disease"))
                    !! k).
Proof.
  apply (extract_metadata_consumes_directive source_directive "Disease" (Some source_items)
           (Some ["disease_id"; "other_id"]) ∅).
  vm_compute. reflexivity.
Defined.

Lemma extract_metadata_key_collision_witness :
  YamlParser._extract_metadata [source_directive] (Some colliding_items) (Some "Disease")
                               (Some ["disease_id"]) ∅
  = (Raise KeyError,
     <["Disease" := merged colliding_items (default ∅ ((∅ : gmap string (gmap string string))
                                                        !! "Disease"))]> ∅,
     [ErrorLog KeyError]).
Proof.
  assert (Ht : "Disease" <> "") by discriminate.
  assert (Hkey : merged colliding_items
                        (default ∅ ((∅ : gmap string (gmap string string)) !! "Disease"))
                 !! source_directive = Some "source") by (vm_compute; reflexivity).
  apply (proj1 (proj1 (extract_metadata_key_collision source_directive "Disease" "source"
                         (<["source" := "OncoKB"]> ∅) [<[source_directive := "source"]> ∅]
                         (Some ["disease_id"]) ∅ Ht Hkey))).
  exists "OncoKB". vm_compute. reflexivity.
Defined.

Lemma extract_metadata_twice_witness :
  exists left_behind,
    YamlParser._extract_metadata [source_directive] (Some source_items) (Some "Disease")
      (Some ["disease_id"])
      (<["Disease" := <["columns_of_origin" := "disease_id"]> (<["source" := "OncoKB"]> ∅)]> ∅)
    = (Raise KeyError, left_behind, [ErrorLog KeyError]).
Proof.
  assert (Hfree : (∅ : gmap string (gmap string string)) !! "Disease" = None) by reflexivity.
  assert (Hkey : merged source_items ∅ !! source_directive = Some "columns_of_origin")
    by (vm_compute; reflexivity).
  apply (extract_metadata_twice source_directive "Disease" "columns_of_origin" "disease_id" []
           (<["source" := "OncoKB"]> ∅) [<[source_directive := "columns_of_origin"]> ∅]
           (Some ["disease_id"]) ∅
           (<["Disease" := <["columns_of_origin" := "disease_id"]> (<["source" := "OncoKB"]> ∅)]> ∅)
           (<["Disease" := <["columns_of_origin" := "disease_id"]> (<["source" := "OncoKB"]> ∅)]> ∅)
           [] Hfree Hkey).
  vm_compute. reflexivity.
Defined.

Lemma builtin_transformers_keep_state_witness :
  confined ["gene_id"] (set_row gene_disease_row initial)
           (set_row (<["gene_id" := PStr "ENSG00000012048"]> gene_disease_row) initial).
Proof.
  assert (H : drain (call no_re_sub no_format_map translate_gene (PInt 0))
                    (set_row gene_disease_row initial)
              = ([PStr "ENSG00000012048"], None,
                 set_row (<["gene_id" := PStr "ENSG00000012048"]> gene_disease_row) initial, []))
    by (vm_compute; reflexivity).
  exact (proj1 (builtin_transformers_keep_state no_re_sub no_format_map translate_gene (PInt 0)
                  _ _ _ _ _ I H)).
Defined.

Lemma transformer_error_is_AttributeError_witness :
  drain (call no_re_sub no_format_map quoted_map (PInt 0)) (set_row gene_disease_row initial)
  = ([], Some AttributeError, set_row gene_disease_row initial, [ErrorLog TransformerDataError])
  /\ Some AttributeError = Some AttributeError.
Proof.
  assert (H : drain (call no_re_sub no_format_map quoted_map (PInt 0))
                    (set_row gene_disease_row initial)
              = ([], Some AttributeError, set_row gene_disease_row initial,
                 [ErrorLog TransformerDataError]))
    by (vm_compute; reflexivity).
  split; [exact H|].
  assert (Hin : ErrorLog TransformerDataError ∈ [ErrorLog TransformerDataError]) by left.
  exact (transformer_error_is_AttributeError no_re_sub no_format_map quoted_map (PInt 0)
           _ _ _ _ _ TransformerDataError I eq_refl H Hin).
Defined.

Lemma map_yields_cells_witness :
  drain (call no_re_sub no_format_map quoted_map (PInt 0)) (set_row quoted_row initial)
  = (yielded accept_all [PStr "it's"], None, set_row quoted_row initial, []).
Proof.
  apply (map_yields_cells no_re_sub no_format_map quoted_map accept_all ["name"]
           [PStr "it's"] (set_row quoted_row initial) (PInt 0));
    try reflexivity; try discriminate.
  repeat constructor.
Defined.

Lemma map_missing_column_ends_witness :
  drain (call no_re_sub no_format_map map_gene_alias (PInt 0)) (set_row gene_disease_row initial)
  = (yielded accept_all [PStr "BRCA1"], Some AttributeError, set_row gene_disease_row initial,
     [ErrorLog TransformerDataError]).
Proof.
  apply (map_missing_column_ends no_re_sub no_format_map map_gene_alias accept_all
           ["gene_id"] [] "alias" [PStr "BRCA1"] (set_row gene_disease_row initial) (PInt 0));
    try reflexivity; try discriminate.
  repeat constructor.
Defined.



Lemma split_yields_pieces_witness :
  drain (call no_re_sub no_format_map split_ids (PInt 0)) (set_row ids_row initial)
  = (yielded accept_all
       (PStr <$> concat ((fun cell => py_split (py_str cell) ";") <$> [PStr "D001;;D002"])),
     None, set_row ids_row initial, []).
Proof.
  apply (split_yields_pieces no_re_sub no_format_map split_ids accept_all ";" ["ids"]
           [PStr "D001;;D002"] (set_row ids_row initial) (PInt 0));
    try reflexivity; try discriminate.
  repeat constructor.
Defined.

Lemma string_without_value_witness :
  drain (call no_re_sub no_format_map string_no_value (PInt 0)) initial
  = ([PStr "None"], None, initial, [ErrorLog TransformerInterfaceError]).
Proof.
  apply (string_without_value no_re_sub no_format_map string_no_value accept_all initial
           (PInt 0)); reflexivity.
Defined.


Lemma all_builtin_gene_disease : all_builtin gene_disease_run.
Proof.
  split.
  - repeat constructor.
  - apply map_Forall_to_list. vm_compute. repeat constructor.
Qed.

Lemma run_counts_and_accumulators_witness :
  1%nat = length (PandasAdapter.df gene_disease_run)
  /\ 1%nat = (length (PandasAdapter.df gene_disease_run)
              * length (PandasAdapter.transformers gene_disease_run))%nat
  /\ (length [("BRCA1:Gene", "Gene", (∅ : gmap string string));
              ("D001:Disease", "Disease", ∅)] <= 1 + 1)%nat
  /\ (exists es, [ConfigError] = [ConfigError] ++ es)
  /\ ([ConfigError] <> [] ->
      exists lg0, [RunSummaryLog 1 1 1 1] = lg0 ++ [RunSummaryLog (length [ConfigError]) 1 1 1]).
Proof.
  apply (run_counts_and_accumulators no_re_sub no_format_map gene_disease_run
           all_builtin_gene_disease
           (Env ∅ [("stale", "Gene", ∅)] [] [ConfigError])
           (Env gene_disease_row
                [("BRCA1:Gene", "Gene", ∅); ("D001:Disease", "Disease", ∅)]
                [("", "BRCA1:Gene", "D001:Disease", "ASSOCIATED_WITH", ∅)]
                [ConfigError])
           1 1 1 [RunSummaryLog 1 1 1 1]).
  vm_compute. reflexivity.
Defined.

Lemma properties_sanitized_then_metadata_witness :
  (forall k v, metadata_for bare_ids quoted_map true !! k = Some v ->
               (<["name" := "it`s"]> ∅ : gmap string string) !! k = Some v)
  /\ (forall k v, (<["name" := "it`s"]> ∅ : gmap string string) !! k = Some v ->
                  metadata_for bare_ids quoted_map true !! k = None ->
                  k ∈ [(quoted_map, "name")].*2 /\ no_quote v).
Proof.
  apply (properties_sanitized_then_metadata no_re_sub no_format_map bare_ids
           [(quoted_map, "name")] (PInt 0) quoted_map true
           (set_row quoted_row initial) (set_row quoted_row initial) _ []).
  vm_compute. reflexivity.
Defined.

